(** * data-universe: content validation and scrape scheduling

    A shallow embedding of
      - [custom_crawler.generate_scraping_config],
      - [scraping.provider.ScraperProvider],
      - [scraping.x.twitter_custom_scraper.TwitterCustomScraper]
    together with the properties their specification states.

    Python values are modelled as follows: [int] is [Z]; [str] is a list of
    Unicode code points ([pystr]); a [dict] is a [gmap]; an exception raised
    by a call is the [Raise] outcome of the [exc] monad; the browser session
    behind [validate] is an explicit world threaded through the loop. *)

From Stdlib Require Import ZArith String Ascii Bool Lia.
From stdpp Require Import base option list gmap strings.

Open Scope Z_scope.

(* ===================================================================== *)
(** ** Python runtime: exceptions, strings, slices                        *)
(* ===================================================================== *)

Module Py.

(** The exceptions the modelled code can meet. Each of them derives from
    [Exception], so an [except Exception] clause catches all of them. *)
Inductive PyExc : Type :=
  | TypeError
  | AttributeError
  | KeyError
  | ValueError
  | ZeroDivisionError
  | AssertionError
  | ValidationError
  | OtherError (tag : nat).

Inductive exc (A : Type) : Type :=
  | OK (a : A)
  | Raise (e : PyExc).
Arguments OK {A} a.
Arguments Raise {A} e.

Definition bind {A B} (m : exc A) (k : A -> exc B) : exc B :=
  match m with
  | OK a => k a
  | Raise e => Raise e
  end.

(** [try: body  except Exception: handler]. *)
Definition try_except {A} (body : exc A) (handler : PyExc -> exc A) : exc A :=
  match body with
  | OK a => OK a
  | Raise e => handler e
  end.

Definition raises {A} (m : exc A) : Prop := exists e, m = Raise e.
Definition returns {A} (m : exc A) (a : A) : Prop := m = OK a.

(** A [str] is a sequence of code points. *)
Abbreviation pystr := (list N).

Definition str (s : string) : pystr :=
  N_of_ascii <$> list_ascii_of_string s.

(** U+2026 HORIZONTAL ELLIPSIS, one code point. *)
Definition ellipsis : N := 8230%N.

(** [s.startswith(p)]. *)
Fixpoint startswith (s p : pystr) {struct p} : bool :=
  match p, s with
  | [], _ => true
  | _ :: _, [] => false
  | c :: p', d :: s' => N.eqb c d && startswith s' p'
  end.

(** [sub in s] on strings: [sub] occurs in [s] as a contiguous run. *)
Fixpoint contains (s sub : pystr) : bool :=
  startswith s sub ||
  match s with
  | [] => false
  | _ :: s' => contains s' sub
  end.

(** Index normalisation of a slice bound (step 1), as CPython does it. *)
Definition adjust_index (len i : Z) : Z :=
  if i <? 0 then Z.max (i + len) 0 else Z.min i len.

(** [l[start:stop]]; [None] is an omitted bound. Never raises. *)
Definition slice {A} (l : list A) (start stop : option Z) : list A :=
  let len := Z.of_nat (length l) in
  let a := match start with None => 0 | Some i => adjust_index len i end in
  let b := match stop with None => len | Some j => adjust_index len j end in
  take (Z.to_nat (b - a)) (drop (Z.to_nat a) l).

(** [s.endswith(suf)]. *)
Definition endswith (s suf : pystr) : bool :=
  (length suf <=? length s)%nat &&
  bool_decide (drop (length s - length suf) s = suf).

(** [range(n)]. *)
Definition range (n : Z) : list Z :=
  Z.of_nat <$> seq 0 (Z.to_nat n).

(** [a // b] on integers: floor division, [ZeroDivisionError] on [b = 0]. *)
Definition floordiv (a b : Z) : exc Z :=
  if b =? 0 then Raise ZeroDivisionError else OK (a / b).

(** [list.append]: exactly one positional argument and no keyword
    arguments; anything else is a [TypeError]. *)
Definition list_append {A K} (self : list A) (args : list A) (kwargs : list K)
  : exc (list A) :=
  match kwargs with
  | _ :: _ => Raise TypeError
  | [] =>
      match args with
      | [x] => OK (self ++ [x])
      | _ => Raise TypeError
      end
  end.

End Py.

Import Py.

Notation "'do' x <- m ; k" := (bind m (fun x => k))
  (at level 10, x name, m at level 100, k at level 200).

(* ===================================================================== *)
(** ** custom_crawler.py                                                  *)
(* ===================================================================== *)

Module Crawler.

Record LabelGroup : Type := mkLabelGroup {
  label_choices : list pystr;
  max_data_entities : Z
}.

Record ScraperConfig : Type := mkScraperConfig {
  scraper_id : pystr;
  cadence_seconds : Z;
  labels_to_scrape : list LabelGroup
}.

Record ScrapingConfig : Type := mkScrapingConfig {
  scraper_configs : list ScraperConfig
}.

Definition generate_scraping_config
    (sub_reddits : list pystr) (cascade_seconds max_entities num_steps : Z)
  : exc ScrapingConfig :=
  do labels_per_steps <- floordiv (Z.of_nat (length sub_reddits)) num_steps;
  let labels_to_scrape :=
    if labels_per_steps =? 0 then
      [ {| label_choices := sub_reddits; max_data_entities := max_entities |} ]
    else
      (fun i =>
         {| label_choices :=
              slice sub_reddits (Some i) (Some (i + labels_per_steps));
            max_data_entities := max_entities |})
      <$> range num_steps
  in
  OK {| scraper_configs :=
          [ {| scraper_id := str "Reddit.custom";
               cadence_seconds := cascade_seconds;
               labels_to_scrape := labels_to_scrape |} ] |}.

(** The label groups of a generated configuration. *)
Definition groups_of (c : ScrapingConfig) : list (list pystr) :=
  concat ((fun sc => label_choices <$> labels_to_scrape sc)
          <$> scraper_configs c).

End Crawler.


(* ===================================================================== *)
(** ** scraping/provider.py                                               *)
(* ===================================================================== *)

Module Provider.

(** A factory is called with keyword arguments only. *)
Abbreviation Factory Scraper := (list (pystr * pystr) -> exc Scraper).

Section Provider.

(** [ScraperId] (an enum) and [Scraper] (the strategy interface) are
    declared in scraping/scraper.py; the provider only compares ids and
    hands out what a factory builds. *)
Context {ScraperId : Type} `{Countable ScraperId}.
Context {Scraper : Type}.
Variables REDDIT_LITE X_FLASH REDDIT_CUSTOM X_MICROWORLDS : ScraperId.

Variables RedditLiteScraper MicroworldsTwitterScraper RedditCustomScraper
  : Factory Scraper.

(** A dict display inserts its items left to right. *)
Definition DEFAULT_FACTORIES : gmap ScraperId (Factory Scraper) :=
  <[X_MICROWORLDS := MicroworldsTwitterScraper]>
    (<[REDDIT_CUSTOM := RedditCustomScraper]>
       (<[X_FLASH := MicroworldsTwitterScraper]>
          (<[REDDIT_LITE := RedditLiteScraper]> ∅))).

Record ScraperProvider : Type := mkScraperProvider {
  factories : gmap ScraperId (Factory Scraper);
  reddit_config : option (gmap pystr pystr)
}.

(** [__init__], with its two defaulted parameters. *)
Definition init (factories : option (gmap ScraperId (Factory Scraper)))
                (reddit_config : option (gmap pystr pystr))
  : ScraperProvider :=
  {| factories := default DEFAULT_FACTORIES factories;
     reddit_config := reddit_config |}.

(** [d[k]] on a dict. *)
Definition getitem (d : gmap pystr pystr) (k : pystr) : exc pystr :=
  match d !! k with
  | Some v => OK v
  | None => Raise KeyError
  end.

(** Truth value of [self.reddit_config]: [None] and the empty dict are
    false. *)
Definition truthy (c : option (gmap pystr pystr)) : bool :=
  match c with
  | None => false
  | Some d => negb (bool_decide (d = ∅))
  end.

Definition get (self : ScraperProvider) (scraper_id : ScraperId)
  : exc Scraper :=
  match factories self !! scraper_id with
  | None => Raise AssertionError
  | Some factory =>
      if bool_decide (scraper_id = REDDIT_CUSTOM)
         && truthy (reddit_config self)
      then
        let cfg := default ∅ (reddit_config self) in
        do client_id <- getitem cfg (str "client_id");
        do client_secret <- getitem cfg (str "client_secret");
        do username <- getitem cfg (str "username");
        do password <- getitem cfg (str "password");
        factory [ (str "client_id", client_id);
                  (str "client_secret", client_secret);
                  (str "username", username);
                  (str "password", password) ]
      else factory []
  end.

End Provider.

End Provider.

(* ===================================================================== *)
(** ** Libraries the scraper calls: datetime and BeautifulSoup             *)
(* ===================================================================== *)

Module dt.

(** A time zone with a fixed offset from UTC, in microseconds:
    [timezone(timedelta(microseconds=utcoffset))]. *)
Record timezone : Type := mktimezone { utcoffset : Z }.

(** [timezone.utc] *)
Definition utc : timezone := mktimezone 0.

Record datetime : Type := mkdatetime {
  year : Z; month : Z; day : Z;
  hour : Z; minute : Z; second : Z; microsecond : Z;
  tzinfo : option timezone
}.

Definition replace_second (d : datetime) (s : Z) : datetime :=
  {| year := year d; month := month d; day := day d; hour := hour d;
     minute := minute d; second := s; microsecond := microsecond d;
     tzinfo := tzinfo d |}.

Definition replace_microsecond (d : datetime) (us : Z) : datetime :=
  {| year := year d; month := month d; day := day d; hour := hour d;
     minute := minute d; second := second d; microsecond := us;
     tzinfo := tzinfo d |}.

Definition replace_tzinfo (d : datetime) (tz : option timezone) : datetime :=
  {| year := year d; month := month d; day := day d; hour := hour d;
     minute := minute d; second := second d; microsecond := microsecond d;
     tzinfo := tz |}.

#[global] Instance timezone_eq_dec : EqDecision timezone.
Proof. solve_decision. Defined.

#[global] Instance datetime_eq_dec : EqDecision datetime.
Proof. solve_decision. Defined.

(** The day count of the proleptic Gregorian calendar, as [toordinal]. *)
Definition is_leap (y : Z) : bool :=
  (y mod 4 =? 0) && (negb (y mod 100 =? 0) || (y mod 400 =? 0)).

Definition days_before_year (y : Z) : Z :=
  (y - 1) * 365 + (y - 1) / 4 - (y - 1) / 100 + (y - 1) / 400.

Definition days_before_month (y m : Z) : Z :=
  nth (Z.to_nat m)
      [-1; 0; 31; 59; 90; 120; 151; 181; 212; 243; 273; 304; 334] 0
  + (if (2 <? m) && is_leap y then 1 else 0).

Definition toordinal (d : datetime) : Z :=
  days_before_year (year d) + days_before_month (year d) (month d) + day d.

(** The fields of [d] as a count of microseconds. *)
Definition civil_microseconds (d : datetime) : Z :=
  (toordinal d * 86400 + (second d + minute d * 60 + hour d * 3600)) * 1000000
  + microsecond d.

Definition same_fields (a b : datetime) : bool :=
  bool_decide ((year a, month a, day a, hour a, minute a, second a,
                microsecond a)
               = (year b, month b, day b, hour b, minute b, second b,
                  microsecond b)).

(** [a == b] on datetimes: the fields decide when both are naive or both
    have the same offset; a naive and an aware datetime are never equal;
    two aware datetimes with different offsets are equal when they are the
    same instant. *)
Definition datetime_eqb (a b : datetime) : bool :=
  match tzinfo a, tzinfo b with
  | None, None => same_fields a b
  | Some za, Some zb =>
      if utcoffset za =? utcoffset zb then same_fields a b
      else civil_microseconds a - utcoffset za
           =? civil_microseconds b - utcoffset zb
  | _, _ => false
  end.

End dt.

Module bs4.

(** A parsed document: tags with a name, an attribute dict and children,
    and text leaves. *)
#[warnings="-register-all"]
Inductive Node : Type :=
  | Tag (name : pystr) (attrs : gmap pystr pystr) (children : list Node)
  | NavigableString (s : pystr).

(** All nodes below [n], in document order. *)
Fixpoint descendants (n : Node) : list Node :=
  match n with
  | NavigableString _ => []
  | Tag _ _ cs => List.flat_map (fun c => c :: descendants c) cs
  end.

(** [n.text]: the strings below [n], concatenated. *)
Fixpoint text (n : Node) : pystr :=
  match n with
  | NavigableString s => s
  | Tag _ _ cs => concat (text <$> cs)
  end.

Definition is_tag (n : Node) : bool :=
  match n with Tag _ _ _ => true | NavigableString _ => false end.

Definition name_is (nm : pystr) (n : Node) : bool :=
  match n with
  | Tag nm' _ _ => bool_decide (nm' = nm)
  | NavigableString _ => false
  end.

(** [n.get(k)]: the attribute, or [None]. *)
Definition get (n : Node) (k : pystr) : option pystr :=
  match n with
  | Tag _ attrs _ => attrs !! k
  | NavigableString _ => None
  end.

Definition has_attr (n : Node) (k : pystr) : bool :=
  bool_decide (is_Some (get n k)).

(** [n[k]]: [KeyError] when the attribute is absent. *)
Definition getitem (n : Node) (k : pystr) : exc pystr :=
  match get n k with
  | Some v => OK v
  | None => Raise KeyError
  end.

(** [n.find_all(match)]: the matching tags below [n], in document order. *)
Definition find_all (n : Node) (matches : Node -> bool) : list Node :=
  List.filter (fun d => is_tag d && matches d) (descendants n).

(** [n.find(match)]: the first match, or [None]. *)
Definition find (n : Node) (matches : Node -> bool) : option Node :=
  head (find_all n matches).

End bs4.

(* ===================================================================== *)
(** ** scraping/x/twitter_custom_scraper.py                               *)
(* ===================================================================== *)

Module Twitter.

(** *** Data model (common/data.py, scraping/scraper.py, scraping/x/model.py) *)

Inductive DataSource : Type := REDDIT | X.

Record DataLabel : Type := mkDataLabel { value : pystr }.

Record DataEntity : Type := mkDataEntity {
  uri : pystr;
  datetime : dt.datetime;
  source : DataSource;
  label : option DataLabel;
  content : list Byte.byte;
  content_size_bytes : Z
}.

Record XContent : Type := mkXContent {
  username : pystr;
  text : pystr;
  url : pystr;
  timestamp : dt.datetime;
  tweet_hashtags : list pystr
}.

#[global] Instance DataSource_eq_dec : EqDecision DataSource.
Proof. solve_decision. Defined.

#[global] Instance DataLabel_eq_dec : EqDecision DataLabel.
Proof. solve_decision. Defined.

#[global] Instance XContent_eq_dec : EqDecision XContent.
Proof. solve_decision. Defined.

(** [a == b] on two [XContent] models: the fields are compared one by one
    with [==]. *)
Definition XContent_eqb (a b : XContent) : bool :=
  bool_decide (username a = username b)
  && bool_decide (text a = text b)
  && bool_decide (url a = url b)
  && dt.datetime_eqb (timestamp a) (timestamp b)
  && bool_decide (tweet_hashtags a = tweet_hashtags b).

(** [tweet.text = t]. *)
Definition set_text (tweet : XContent) (t : pystr) : XContent :=
  {| username := username tweet; text := t; url := url tweet;
     timestamp := timestamp tweet; tweet_hashtags := tweet_hashtags tweet |}.

Record ValidationResult : Type := mkValidationResult {
  is_valid : bool;
  reason : pystr;
  content_size_bytes_validated : Z
}.

(** A computation that may raise and may drive the browser. *)
Definition M (World A : Type) : Type := World -> exc A * World.

Definition retM {World A} (a : A) : M World A := fun w => (OK a, w).

Definition liftM {World A} (m : exc A) : M World A := fun w => (m, w).

Definition bindM {World A B} (m : M World A) (k : A -> M World B)
  : M World B :=
  fun w =>
    match m w with
    | (OK a, w') => k a w'
    | (Raise e, w') => (Raise e, w')
    end.

(** What the scraper imports and this development does not define: the URL
    helpers of scraping/x/utils.py, the codec of scraping/x/model.py, the
    field comparison of common/data.py, the HTML parser, [strptime], and the
    Playwright session that loads a page and reads the tweet's inner HTML. *)
Record Env (World : Type) : Type := mkEnv {
  is_valid_twitter_url : pystr -> bool;
  get_user_from_twitter_url : pystr -> exc (option pystr);
  tweet_inner_html : pystr -> World -> exc pystr * World;
  BeautifulSoup : pystr -> exc bs4.Node;
  strptime : pystr -> pystr -> exc dt.datetime;
  from_data_entity : DataEntity -> exc XContent;
  to_data_entity : XContent -> exc DataEntity;
  are_non_content_fields_equal : DataEntity -> DataEntity -> exc bool;
  (** default of the field [content_size_bytes_validated], [None] when the
      field is required *)
  content_size_bytes_validated_default : option Z
}.
Arguments is_valid_twitter_url {World} _ _.
Arguments get_user_from_twitter_url {World} _ _.
Arguments tweet_inner_html {World} _ _ _.
Arguments BeautifulSoup {World} _ _.
Arguments strptime {World} _ _ _.
Arguments from_data_entity {World} _ _.
Arguments to_data_entity {World} _ _.
Arguments are_non_content_fields_equal {World} _ _ _.
Arguments content_size_bytes_validated_default {World} _.

Definition hash : N := 35%N.

(** ["#" + hashtag[1:] for hashtag in hashtags] *)
Definition corrected_hashtags (hashtags : list pystr) : list pystr :=
  (fun hashtag => str "#" ++ slice hashtag (Some 1) None) <$> hashtags.

(** The condition under which [_validate_tweet] adopts the claim's text. *)
Definition elided (tweet_text verify_text : pystr) : bool :=
  negb (bool_decide (tweet_text = verify_text))
  && endswith verify_text [ellipsis]
  && contains tweet_text (slice verify_text None (Some (-1))).

Section Scraper.

Context {World : Type} (env : Env World).

(** [ValidationResult(is_valid=..., reason=..., content_size_bytes_validated=...)];
    [None] stands for a keyword that the call leaves out. *)
Definition ValidationResult_init
    (is_valid : bool) (reason : pystr) (size : option Z)
  : exc ValidationResult :=
  match size with
  | Some n => OK (mkValidationResult is_valid reason n)
  | None =>
      match content_size_bytes_validated_default env with
      | Some n => OK (mkValidationResult is_valid reason n)
      | None => Raise ValidationError
      end
  end.

(** The loop over [tweet_text_element.find_all(...)] that builds the text. *)
Fixpoint tweet_text_of (elements : list bs4.Node) (tweet_text : pystr)
  : exc pystr :=
  match elements with
  | [] => OK tweet_text
  | element :: rest =>
      do tweet_text <-
        (if bs4.has_attr element (str "alt")
         then do alt <- bs4.getitem element (str "alt"); OK (tweet_text ++ alt)
         else OK tweet_text);
      tweet_text_of rest (tweet_text ++ bs4.text element)
  end.

Definition _best_effort_parse_tweet_from_html (html url : pystr)
  : exc (option XContent) :=
  let tweet : option XContent := None in
  try_except
    (do soup <- BeautifulSoup env html;
     do username <- get_user_from_twitter_url env url;
     match username with
     | None => OK None
     | Some username =>
         let tweet_text_element :=
           bs4.find soup
             (fun tag => bs4.name_is (str "div") tag
                && bool_decide (bs4.get tag (str "data-testid")
                                = Some (str "tweetText"))) in
         do elements <-
           match tweet_text_element with
           | None => Raise AttributeError
           | Some e =>
               OK (bs4.find_all e
                     (fun tag => bs4.name_is (str "span") tag
                                 || bs4.name_is (str "img") tag))
           end;
         do tweet_text <- tweet_text_of elements [];
         let time_element := bs4.find soup (bs4.name_is (str "time")) in
         do stamp <-
           match time_element with
           | None => Raise TypeError
           | Some e => bs4.getitem e (str "datetime")
           end;
         do parsed <- strptime env stamp (str "%Y-%m-%dT%H:%M:%S.%fZ");
         let timestamp :=
           dt.replace_tzinfo
             (dt.replace_microsecond (dt.replace_second parsed 0) 0)
             (Some dt.utc) in
         let hashtags :=
           bs4.text <$>
             (bs4.find_all soup
                (fun tag => bs4.name_is (str "a") tag
                   && match bs4.get tag (str "href") with
                      | None => false
                      | Some x =>
                          negb (bool_decide (x = []))
                          && contains x (str "ashtag_click")
                      end)) in
         OK (Some {| username := username;
                     text := tweet_text;
                     url := url;
                     timestamp := timestamp;
                     tweet_hashtags := corrected_hashtags hashtags |})
     end)
    (fun _ => OK tweet).

Definition _validate_tweet (tweet : XContent) (entity : DataEntity)
  : exc ValidationResult :=
  match from_data_entity env entity with
  | Raise _ =>
      ValidationResult_init false (str "Failed to decode data entity")
        (Some (content_size_bytes entity))
  | OK tweet_to_verify =>
      let tweet :=
        if elided (text tweet) (text tweet_to_verify)
        then set_text tweet (text tweet_to_verify)
        else tweet in
      if negb (XContent_eqb tweet_to_verify tweet) then
        ValidationResult_init false (str "Tweet does not match")
          (Some (content_size_bytes entity))
      else
        do early <-
          try_except
            (do tweet_entity <- to_data_entity env tweet;
             do same <- are_non_content_fields_equal env tweet_entity entity;
             if negb same then
               do r <- ValidationResult_init false
                         (str "The DataEntity fields are incorrect based on the tweet.")
                         (Some (content_size_bytes entity));
               OK (Some r)
             else OK None)
            (fun _ =>
               do r <- ValidationResult_init false
                         (str "Failed to convert XContent to DataEntity.")
                         (Some (content_size_bytes entity));
               OK (Some r));
        match early with
        | Some r => OK r
        | None =>
            ValidationResult_init true (str "Good job, you honest miner!")
              (Some (content_size_bytes entity))
        end
  end.

(** One turn of the [for entity in entities] loop: the results after it. *)
Definition validate_entity (entity : DataEntity)
    (results : list ValidationResult)
  : M World (list ValidationResult) :=
  if negb (is_valid_twitter_url env (uri entity)) then
    liftM
      (do r <- ValidationResult_init false (str "Invalid URI.") None;
       list_append results [r]
         [(str "content_size_bytes_validated", content_size_bytes entity)])
  else
    fun w =>
      match tweet_inner_html env (uri entity) w with
      | (Raise _, w') =>
          liftM
            (do r <- ValidationResult_init false
                       (str "Failed to get Tweet. This can happen if the URI is invalid, or playwright is having an issue.")
                       (Some (content_size_bytes entity));
             list_append (K := pystr * Z) results [r] []) w'
      | (OK html, w') =>
          liftM
            (do tweet <- _best_effort_parse_tweet_from_html html (uri entity);
             match tweet with
             | None =>
                 do r <- ValidationResult_init false
                           (str "Tweet not found or is invalid.")
                           (Some (content_size_bytes entity));
                 list_append (K := pystr * Z) results [r] []
             | Some tweet =>
                 do r <- _validate_tweet tweet entity;
                 list_append (K := pystr * Z) results [r] []
             end) w'
      end.

Fixpoint validate_loop (entities : list DataEntity)
    (results : list ValidationResult)
  : M World (list ValidationResult) :=
  match entities with
  | [] => retM results
  | entity :: rest =>
      bindM (validate_entity entity results) (validate_loop rest)
  end.

Definition validate (entities : list DataEntity)
  : M World (list ValidationResult) :=
  match entities with
  | [] => retM []
  | _ => validate_loop entities []
  end.

End Scraper.

End Twitter.

(* ===================================================================== *)
(** ** Notions used by the statements                                     *)
(* ===================================================================== *)

Definition strict_prefix (p s : pystr) : Prop := p `prefix_of` s /\ p <> s.

(** The credentials taken from a config, as the keyword arguments of the
    factory call. *)
Definition credentials (client_id client_secret username password : pystr)
  : list (pystr * pystr) :=
  [ (str "client_id", client_id);
    (str "client_secret", client_secret);
    (str "username", username);
    (str "password", password) ].

Section Notions.

Import Twitter.

Context {World : Type} (env : Env World).

(** The error of [ValidationResult(...)] without a size, or else of the
    [append] call with a keyword argument. *)
Definition invalid_uri_error : PyExc :=
  match content_size_bytes_validated_default env with
  | None => ValidationError
  | Some _ => TypeError
  end.

(** The five results that [_validate_tweet] can return for an entity:
    decode failure, content mismatch, metadata mismatch, re-encoding
    failure, and success. *)
Definition verdicts (entity : DataEntity) : list ValidationResult :=
  (fun v : bool * string =>
     {| is_valid := fst v; reason := str (snd v);
        content_size_bytes_validated := content_size_bytes entity |})
  <$> [ (false, "Failed to decode data entity");
        (false, "Tweet does not match");
        (false, "The DataEntity fields are incorrect based on the tweet.");
        (false, "Failed to convert XContent to DataEntity.");
        (true, "Good job, you honest miner!") ]%string.

Definition invalid_uri (e : DataEntity) : Prop :=
  is_valid_twitter_url env (uri e) = false.

Definition valid_uri (e : DataEntity) : Prop :=
  is_valid_twitter_url env (uri e) = true.

(** The world after the one page load that a turn for [e] makes. *)
Definition loaded (w : World) (e : DataEntity) : World :=
  snd (tweet_inner_html env (uri e) w).

Definition fetch_failed (e : DataEntity) : ValidationResult :=
  {| is_valid := false;
     reason := str "Failed to get Tweet. This can happen if the URI is invalid, or playwright is having an issue.";
     content_size_bytes_validated := content_size_bytes e |}.

End Notions.

(* ===================================================================== *)
(** ** Sample inputs                                                      *)
(* ===================================================================== *)

(** A list of [str] literals. *)
Definition strs (l : list string) : list pystr := str <$> l.

Definition ten_labels : list pystr :=
  strs ["a"; "b"; "c"; "d"; "e"; "f"; "g"; "h"; "i"; "j"]%string.

(** The configuration for ten labels in three steps. *)
Definition windows_10_3 : Crawler.ScrapingConfig :=
  {| Crawler.scraper_configs :=
       [ {| Crawler.scraper_id := str "Reddit.custom";
            Crawler.cadence_seconds := 30;
            Crawler.labels_to_scrape :=
              (fun g => Crawler.mkLabelGroup g 100)
              <$> [ strs ["a"; "b"; "c"]; strs ["b"; "c"; "d"];
                    strs ["c"; "d"; "e"] ]%string |} ] |}.

(** ** A sample environment: the entities of [test_validate] *)

Module Sample.

Import Twitter.

Definition tweet_uri : pystr :=
  str "https://twitter.com/nirmaljajra2/status/1733439438473380254".

Definition posted : dt.datetime :=
  dt.mkdatetime 2023 12 9 10 52 0 0 (Some dt.utc).

Definition good_entity : DataEntity :=
  {| uri := tweet_uri;
     datetime := posted;
     source := X;
     label := Some (mkDataLabel (str "#bittensor"));
     content := [];
     content_size_bytes := 484 |}.

Definition with_uri (e : DataEntity) (u : pystr) : DataEntity :=
  {| uri := u; datetime := datetime e; source := source e; label := label e;
     content := content e; content_size_bytes := content_size_bytes e |}.

(** A URI whose page cannot be loaded, and a text that is no URI at all. *)
Definition unreachable_entity : DataEntity :=
  with_uri good_entity (str "https://twitter.com/nirmaljajra2/status/abc123").

Definition bad_uri_entity : DataEntity :=
  with_uri good_entity (str "nirmaljajra2/status/1733439438473380254").

Definition attrs (kvs : list (string * string)) : gmap pystr pystr :=
  list_to_map ((fun kv => (str (fst kv), str (snd kv))) <$> kvs).

(** The tweet's markup, as the parser sees it. *)
Definition page : bs4.Node :=
  bs4.Tag (str "[document]") ∅
    [ bs4.Tag (str "div") (attrs [("data-testid", "tweetText")]%string)
        [ bs4.Tag (str "span") ∅
            [ bs4.NavigableString (str "DMind has the biggest advantage of using ") ];
          bs4.Tag (str "a") (attrs [("href", "/hashtag/Bittensor?src=hashtag_click")]%string)
            [ bs4.NavigableString (str "#Bittensor") ];
          bs4.Tag (str "span") ∅ [ bs4.NavigableString (str " APIs.") ];
          bs4.Tag (str "a") (attrs [("href", "/search?q=%24PAAl&src=cashtag_click")]%string)
            [ bs4.NavigableString (str "$PAAl") ] ];
      bs4.Tag (str "time") (attrs [("datetime", "2023-12-09T10:52:41.000Z")]%string)
        [ bs4.NavigableString (str "Dec 9, 2023") ] ].

Definition stored_tweet : XContent :=
  {| username := str "@nirmaljajra2";
     text := str "DMind has the biggest advantage of using  APIs.";
     url := tweet_uri;
     timestamp := posted;
     tweet_hashtags := [str "#Bittensor"; str "#PAAl"] |}.

(** The world is the list of the pages loaded so far. *)
Definition env : Env (list pystr) :=
  {| is_valid_twitter_url :=
       fun u => startswith u (str "https://twitter.com/");
     get_user_from_twitter_url := fun _ => OK (Some (str "@nirmaljajra2"));
     tweet_inner_html :=
       fun u w =>
         (if bool_decide (u = tweet_uri) then OK (str "<div></div>")
          else Raise (OtherError 0),
          w ++ [u]);
     BeautifulSoup := fun _ => OK page;
     strptime := fun _ _ => OK (dt.mkdatetime 2023 12 9 10 52 41 0 None);
     from_data_entity := fun _ => OK stored_tweet;
     to_data_entity :=
       fun t =>
         OK {| uri := url t; datetime := timestamp t; source := X;
               label := Some (mkDataLabel (str "#bittensor"));
               content := []; content_size_bytes := 0 |};
     are_non_content_fields_equal :=
       fun a b =>
         OK (bool_decide (source a = source b) && bool_decide (uri a = uri b)
             && bool_decide (label a = label b)
             && dt.datetime_eqb (datetime a) (datetime b));
     content_size_bytes_validated_default := None |}.

(** The same environment, for a claim whose bytes decode to [claim]. *)
Definition env_claiming (claim : XContent) : Env (list pystr) :=
  {| is_valid_twitter_url := is_valid_twitter_url env;
     get_user_from_twitter_url := get_user_from_twitter_url env;
     tweet_inner_html := tweet_inner_html env;
     BeautifulSoup := BeautifulSoup env;
     strptime := strptime env;
     from_data_entity := fun _ => OK claim;
     to_data_entity := to_data_entity env;
     are_non_content_fields_equal := are_non_content_fields_equal env;
     content_size_bytes_validated_default :=
       content_size_bytes_validated_default env |}.

(** A page on which the parser finds no tweet: it has no text container. *)
Definition empty_page_env : Env (list pystr) :=
  {| is_valid_twitter_url := is_valid_twitter_url env;
     get_user_from_twitter_url := get_user_from_twitter_url env;
     tweet_inner_html := tweet_inner_html env;
     BeautifulSoup := fun _ => OK (bs4.Tag (str "[document]") ∅ []);
     strptime := strptime env;
     from_data_entity := from_data_entity env;
     to_data_entity := to_data_entity env;
     are_non_content_fields_equal := are_non_content_fields_equal env;
     content_size_bytes_validated_default :=
       content_size_bytes_validated_default env |}.

End Sample.

(** ** A sample registry *)

Module SampleProvider.

Inductive ScraperId : Type :=
  | REDDIT_LITE | X_FLASH | REDDIT_CUSTOM | X_MICROWORLDS | X_APIDOJO.

#[global] Instance ScraperId_eq_dec : EqDecision ScraperId.
Proof. solve_decision. Defined.

Definition ScraperId_code (i : ScraperId) : nat :=
  match i with
  | REDDIT_LITE => 0 | X_FLASH => 1 | REDDIT_CUSTOM => 2
  | X_MICROWORLDS => 3 | X_APIDOJO => 4
  end%nat.

Definition ScraperId_of_code (n : nat) : option ScraperId :=
  match n with
  | 0 => Some REDDIT_LITE | 1 => Some X_FLASH | 2 => Some REDDIT_CUSTOM
  | 3 => Some X_MICROWORLDS | 4 => Some X_APIDOJO | _ => None
  end%nat.

#[global] Instance ScraperId_countable : Countable ScraperId.
Proof.
  apply (inj_countable ScraperId_code ScraperId_of_code). by intros [].
Defined.

(** A scraper instance: its class and the credentials bound into it. *)
Inductive Scraper : Type :=
  | RedditLite
  | MicroworldsTwitter
  | RedditCustom (creds : list (pystr * pystr)).

Definition no_arguments (s : Scraper) : Provider.Factory Scraper :=
  fun kwargs => match kwargs with [] => OK s | _ => Raise TypeError end.

Definition factories : gmap ScraperId (Provider.Factory Scraper) :=
  Provider.DEFAULT_FACTORIES REDDIT_LITE X_FLASH REDDIT_CUSTOM X_MICROWORLDS
    (no_arguments RedditLite) (no_arguments MicroworldsTwitter)
    (fun kwargs => OK (RedditCustom kwargs)).

Definition keys : gmap pystr pystr :=
  list_to_map [ (str "client_id", str "id");
                (str "client_secret", str "secret");
                (str "username", str "user");
                (str "password", str "pass") ].

Definition provider : @Provider.ScraperProvider ScraperId _ _ Scraper :=
  Provider.init REDDIT_LITE X_FLASH REDDIT_CUSTOM X_MICROWORLDS
    (no_arguments RedditLite) (no_arguments MicroworldsTwitter)
    (fun kwargs => OK (RedditCustom kwargs))
    None (Some keys).

End SampleProvider.

(* ===================================================================== *)
(** ** custom_crawler.py: the script body                                 *)
(* ===================================================================== *)

Notation "'perform' x <- m ; k" := (Twitter.bindM m (fun x => k))
  (at level 10, x name, m at level 100, k at level 200).

Module Script.

Import Twitter.

(** Two exceptions that only the script can meet. *)
Definition NameError : PyExc := OtherError 1.
Definition IndexError : PyExc := OtherError 2.

(** [l[i]] on a list, with Python's negative indices. *)
Definition list_getitem {A} (l : list A) (i : Z) : exc A :=
  let j := if i <? 0 then i + Z.of_nat (length l) else i in
  if j <? 0 then Raise IndexError
  else match l !! Z.to_nat j with
       | Some x => OK x
       | None => Raise IndexError
       end.

(** [SUB_REDDITS[i: i + REDDITS_PER_KEY]], the labels handed to key [i]. *)
Definition key_sub_reddits (SUB_REDDITS : list pystr) (REDDITS_PER_KEY i : Z)
  : list pystr :=
  slice SUB_REDDITS (Some i) (Some (i + REDDITS_PER_KEY)).

Section Script.

Context {ScraperId : Type} `{Countable ScraperId} {Scraper : Type}.
Variables REDDIT_LITE X_FLASH REDDIT_CUSTOM X_MICROWORLDS : ScraperId.
Variables RedditLiteScraper MicroworldsTwitterScraper RedditCustomScraper
  : Provider.Factory Scraper.
Context {World CoordinatorConfig : Type}.

Abbreviation provider_type := (@Provider.ScraperProvider ScraperId _ _ Scraper).

(** What the script calls and this development does not define:
    [random.randint], the conversion
    [ScrapingConfig.parse_obj(...).to_coordinator_config()], and the
    construction of a [ScraperCoordinator] followed by
    [run_in_background_thread()]. *)
Record Env : Type := mkEnv {
  randint : Z -> Z -> World -> Z * World;
  to_coordinator_config : Crawler.ScrapingConfig -> exc CoordinatorConfig;
  run_coordinator :
    provider_type -> CoordinatorConfig -> World -> exc unit * World
}.

Variable env : Env.

Definition randintM (a b : Z) : M World Z :=
  fun w => let (n, w') := randint env a b w in (OK n, w').

(** [ScraperProvider(reddit_config=key)] *)
Definition provider_for (key : gmap pystr pystr) : provider_type :=
  Provider.init REDDIT_LITE X_FLASH REDDIT_CUSTOM X_MICROWORLDS
    RedditLiteScraper MicroworldsTwitterScraper RedditCustomScraper
    None (Some key).

(** The body of [for i in range(len(KEYS))]. *)
Definition key_iteration (KEYS : list (gmap pystr pystr))
    (SUB_REDDITS : list pystr) (REDDITS_PER_KEY i : Z) : M World unit :=
  perform num_steps <- randintM 5 15;
  let sub_reddits := key_sub_reddits SUB_REDDITS REDDITS_PER_KEY i in
  perform cascade_seconds <- randintM 30 120;
  perform max_entities <- randintM 100 1000;
  perform scraping_config <-
    liftM (Crawler.generate_scraping_config
             sub_reddits cascade_seconds max_entities num_steps);
  perform coordinator_config <-
    liftM (to_coordinator_config env scraping_config);
  perform key <- liftM (list_getitem KEYS i);
  run_coordinator env (provider_for key) coordinator_config.

Fixpoint for_each (indices : list Z) (body : Z -> M World unit)
  : M World unit :=
  match indices with
  | [] => retM tt
  | i :: rest => perform _u <- body i; for_each rest body
  end.

(** The script from the line that computes [REDDITS_PER_KEY], with [KEYS]
    and [SUB_REDDITS] already loaded, up to the entry of the final
    [while True] loop: [OK tt] means that the loop is reached. *)
Definition main (KEYS : list (gmap pystr pystr)) (SUB_REDDITS : list pystr)
  : M World unit :=
  perform REDDITS_PER_KEY <-
    liftM (floordiv (Z.of_nat (length SUB_REDDITS)) (Z.of_nat (length KEYS)));
  if 0 <? REDDITS_PER_KEY then
    for_each (range (Z.of_nat (length KEYS)))
             (key_iteration KEYS SUB_REDDITS REDDITS_PER_KEY)
  else
    perform cascade_seconds <- randintM 30 120;
    perform max_entities <- randintM 100 1000;
    perform num_steps <- randintM 5 15;
    perform scraping_config <-
      liftM (Crawler.generate_scraping_config
               SUB_REDDITS cascade_seconds max_entities num_steps);
    perform coordinator_config <-
      liftM (to_coordinator_config env scraping_config);
    perform key <- liftM (list_getitem KEYS 0);
    perform _u <- run_coordinator env (provider_for key) coordinator_config;
    (* print(f"... for key {i}"): [i] was never bound on this path *)
    liftM (Raise NameError).

End Script.

(** An environment in which every external step succeeds and is recorded:
    the world is a supply of random integers together with the list of the
    coordinators started so far; [randint a b] maps the next integer of
    the supply into the range from [a] to [b]. *)
Section Logged.

Context {ScraperId : Type} `{Countable ScraperId} {Scraper : Type}.

Definition logged_world : Type :=
  list Z
  * list (@Provider.ScraperProvider ScraperId _ _ Scraper
          * Crawler.ScrapingConfig).

Definition logged_env
  : @Env ScraperId _ _ Scraper logged_world Crawler.ScrapingConfig :=
  {| randint :=
       fun a b w => (a + hd 0 (fst w) mod (b - a + 1), (tail (fst w), snd w));
     to_coordinator_config := fun c => OK c;
     run_coordinator :=
       fun p c w => (OK tt, (fst w, snd w ++ [(p, c)])) |}.

End Logged.

End Script.

(* ===================================================================== *)
(** ** Further notions: results, tag predicates, the adjusted tweet       *)
(* ===================================================================== *)

Module Notion.

Import Twitter.

Definition not_found (e : DataEntity) : ValidationResult :=
  {| is_valid := false;
     reason := str "Tweet not found or is invalid.";
     content_size_bytes_validated := content_size_bytes e |}.

Definition mismatch (e : DataEntity) : ValidationResult :=
  {| is_valid := false;
     reason := str "Tweet does not match";
     content_size_bytes_validated := content_size_bytes e |}.

Definition confirmed (e : DataEntity) : ValidationResult :=
  {| is_valid := true;
     reason := str "Good job, you honest miner!";
     content_size_bytes_validated := content_size_bytes e |}.

(** The fresh tweet as [_validate_tweet] compares it: with the claim's text
    when the elision test passes. *)
Definition adopt (tweet tweet_to_verify : XContent) : XContent :=
  if elided (text tweet) (text tweet_to_verify)
  then set_text tweet (text tweet_to_verify)
  else tweet.

(** [div] with [data-testid="tweetText"]. *)
Definition is_tweet_text (tag : bs4.Node) : bool :=
  bs4.name_is (str "div") tag
  && bool_decide (bs4.get tag (str "data-testid") = Some (str "tweetText")).

(** [tag.name in ["span", "img"]]. *)
Definition is_text_piece (tag : bs4.Node) : bool :=
  bs4.name_is (str "span") tag || bs4.name_is (str "img") tag.

(** [a] whose [href] contains ["ashtag_click"]. *)
Definition is_tag_anchor (tag : bs4.Node) : bool :=
  bs4.name_is (str "a") tag
  && match bs4.get tag (str "href") with
     | None => false
     | Some x => negb (bool_decide (x = [])) && contains x (str "ashtag_click")
     end.

(** What one element adds to the tweet text: its [alt], if it has one, and
    then its text. *)
Definition piece_text (element : bs4.Node) : pystr :=
  default [] (bs4.get element (str "alt")) ++ bs4.text element.

(** The tweet that the parser builds from its parts. *)
Definition tweet_of (soup text_element : bs4.Node) (user url : pystr)
    (parsed : dt.datetime) : XContent :=
  {| username := user;
     text := concat (piece_text <$> bs4.find_all text_element is_text_piece);
     url := url;
     timestamp :=
       dt.replace_tzinfo
         (dt.replace_microsecond (dt.replace_second parsed 0) 0)
         (Some dt.utc);
     tweet_hashtags :=
       corrected_hashtags (bs4.text <$> bs4.find_all soup is_tag_anchor) |}.

End Notion.

(* ===================================================================== *)
(** * Properties                                                          *)
(* ===================================================================== *)

(** ** Strings and slices *)

Section PyFacts.

Lemma startswith_prefix (s p : pystr) :
  startswith s p = true <-> p `prefix_of` s.
Proof.
  revert s. induction p as [|c p IH]; intros s; simpl.
  - split; [intros _; apply prefix_nil | reflexivity].
  - destruct s as [|d s].
    + split; [discriminate | intros Hp; by apply prefix_nil_inv in Hp].
    + rewrite andb_true_iff, N.eqb_eq, IH. split.
      * intros [-> Hp]. by apply prefix_cons.
      * intros Hp. split.
        -- by apply prefix_cons_inv_1 in Hp.
        -- by apply prefix_cons_inv_2 in Hp.
Qed.

(** [sub in s] holds exactly when [s] is [pre ++ sub ++ post]. *)
Lemma contains_infix (s sub : pystr) :
  contains s sub = true <-> exists pre post, s = pre ++ sub ++ post.
Proof.
  induction s as [|d s IH]; simpl.
  - rewrite orb_false_r, startswith_prefix. split.
    + intros [k Hk]. by exists [], k.
    + intros (pre & post & Hs). symmetry in Hs.
      apply app_eq_nil in Hs as [-> Hs]. apply app_eq_nil in Hs as [-> ->].
      apply prefix_nil.
  - rewrite orb_true_iff, startswith_prefix, IH. split.
    + intros [[k Hk] | (pre & post & ->)].
      * by exists [], k.
      * by exists (d :: pre), post.
    + intros (pre & post & Hs). destruct pre as [|x pre]; simpl in Hs.
      * left. by exists post.
      * right. injection Hs as _ ->. by exists pre, post.
Qed.

Lemma endswith_suffix (s suf : pystr) :
  endswith s suf = true <-> exists body, s = body ++ suf.
Proof.
  unfold endswith. rewrite andb_true_iff, Nat.leb_le, bool_decide_eq_true.
  split.
  - intros [_ Hd]. exists (take (length s - length suf) s).
    transitivity (take (length s - length suf) s
                  ++ drop (length s - length suf) s);
      [by rewrite take_drop | by rewrite Hd].
  - intros [body ->]. rewrite length_app. split; [lia|].
    replace (length body + length suf - length suf)%nat
      with (length body) by lia.
    by rewrite drop_app_length.
Qed.

(** [l[:-1]] drops the last item, and is empty on the empty list. *)
Lemma slice_drop_last {A} (l : list A) :
  slice l None (Some (-1)) = take (length l - 1) l.
Proof.
  unfold slice, adjust_index. simpl. rewrite drop_0, Z.sub_0_r.
  f_equal. destruct l as [|x l]; simpl; lia.
Qed.

Lemma slice_drop_last_app {A} (body : list A) (x : A) :
  slice (body ++ [x]) None (Some (-1)) = body.
Proof.
  rewrite slice_drop_last, length_app. simpl.
  replace (length body + 1 - 1)%nat with (length body) by lia.
  by rewrite take_app_length.
Qed.

(** [l[1:]] drops the first item, and is empty on the empty list. *)
Lemma slice_tail {A} (l : list A) : slice l (Some 1) None = tail l.
Proof.
  unfold slice, adjust_index. simpl.
  destruct l as [|x l]; [reflexivity|].
  replace (Z.min 1 (Z.of_nat (length (x :: l)))) with 1
    by (simpl length; lia).
  change (Z.to_nat 1) with 1%nat. simpl drop. rewrite drop_0.
  apply take_ge. simpl length. lia.
Qed.

(** [l[i:i+k]] for a start inside the list and a width [k >= 0]. *)
Lemma slice_window {A} (l : list A) (i k : Z) :
  0 <= i -> 0 <= k ->
  slice l (Some i) (Some (i + k))
  = take (Z.to_nat k) (drop (Z.to_nat i) l).
Proof.
  intros Hi Hk. unfold slice, adjust_index.
  destruct (Z.ltb_spec i 0); [lia|].
  destruct (Z.ltb_spec (i + k) 0); [lia|].
  set (len := Z.of_nat (length l)).
  assert (Hlen : 0 <= len) by (unfold len; lia).
  destruct (Z.le_gt_cases len i) as [Hge|Hlt].
  - rewrite !(drop_ge l) by (unfold len in Hge; lia).
    by rewrite !take_nil.
  - rewrite (Z.min_l i len) by lia.
    destruct (Z.le_gt_cases (i + k) len) as [Hin|Hout].
    + rewrite (Z.min_l (i + k) len) by lia. do 2 f_equal. lia.
    + rewrite (Z.min_r (i + k) len) by lia.
      rewrite !take_ge; [done | |];
        rewrite length_drop; unfold len in *; lia.
Qed.

Lemma filter_sublist {A} (f : A -> bool) (l : list A) :
  List.filter f l `sublist_of` l.
Proof.
  induction l as [|x l IH]; simpl; [constructor|].
  destruct (f x); by constructor.
Qed.

Lemma range_seq (n : Z) : range n = Z.of_nat <$> seq 0 (Z.to_nat n).
Proof. reflexivity. Qed.

End PyFacts.

(** ** Label groups of [generate_scraping_config] *)

Section CrawlerFacts.

Import Crawler.

Variables (sub_reddits : list pystr) (cascade_seconds max_entities : Z).

Lemma generate_scraping_config_zero_steps :
  generate_scraping_config sub_reddits cascade_seconds max_entities 0
  = Raise ZeroDivisionError.
Proof. reflexivity. Qed.

(** With a positive step count and a nonzero quotient [q], group [i] is
    the window of width [q] that starts at index [i]: consecutive groups
    are shifted by one label, not by [q]. *)
Lemma generate_scraping_config_windows (num_steps : Z) :
  0 < num_steps ->
  Z.of_nat (length sub_reddits) / num_steps <> 0 ->
  exists c,
    generate_scraping_config sub_reddits cascade_seconds max_entities num_steps
    = OK c /\
    groups_of c
    = (fun i => take (Z.to_nat (Z.of_nat (length sub_reddits) / num_steps))
                     (drop i sub_reddits))
      <$> seq 0 (Z.to_nat num_steps).
Proof.
  intros Hn Hq. unfold generate_scraping_config, floordiv.
  destruct (Z.eqb_spec num_steps 0) as [|_]; [lia|]. simpl bind.
  destruct (Z.eqb_spec (Z.of_nat (length sub_reddits) / num_steps) 0)
    as [|_]; [done|].
  eexists; split; [reflexivity|].
  unfold groups_of. simpl. rewrite app_nil_r, range_seq.
  rewrite <- !list_fmap_compose.
  apply list_fmap_ext. intros _ i _. simpl.
  rewrite slice_window.
  - by rewrite Nat2Z.id.
  - lia.
  - apply Z.div_pos; lia.
Qed.

(** Each of those windows lies inside the list, so it has [q] labels. *)
Lemma generate_scraping_config_group_sizes (num_steps : Z) (c : ScrapingConfig) :
  0 < num_steps ->
  Z.of_nat (length sub_reddits) / num_steps <> 0 ->
  generate_scraping_config sub_reddits cascade_seconds max_entities num_steps
  = OK c ->
  Forall (fun g => Z.of_nat (length g)
                   = Z.of_nat (length sub_reddits) / num_steps)
         (groups_of c) /\
  length (groups_of c) = Z.to_nat num_steps.
Proof.
  intros Hn Hq Hc.
  destruct (generate_scraping_config_windows num_steps Hn Hq)
    as (c' & Hc' & Hg).
  rewrite Hc in Hc'. injection Hc' as <-. rewrite Hg.
  split; [|by rewrite length_fmap, length_seq].
  apply Forall_fmap, Forall_forall. intros i Hi.
  apply elem_of_seq in Hi. simpl.
  rewrite length_take, length_drop.
  set (q := Z.of_nat (length sub_reddits) / num_steps) in *.
  assert (0 <= q) by (apply Z.div_pos; lia).
  assert (num_steps * q <= Z.of_nat (length sub_reddits))
    by (apply Z.mul_div_le; lia).
  assert (Z.of_nat i + q <= Z.of_nat (length sub_reddits)) by nia.
  lia.
Qed.

End CrawlerFacts.


(** C4 (the code departs from the claim). Ten candidate labels and three
    steps give three groups of three labels each, but the groups are the
    overlapping windows [a b c], [b c d], [c d e]: label [b] is in two
    groups, so the groups are not pairwise disjoint, and labels [f] to [j]
    are in no group, so the groups do not partition the candidates. *)
Theorem generate_scraping_config_10_3_overlap :
  exists c,
    Crawler.generate_scraping_config ten_labels 30 100 3 = OK c /\
    Crawler.groups_of c
    = [ strs ["a"; "b"; "c"]; strs ["b"; "c"; "d"]; strs ["c"; "d"; "e"] ]%string /\
    length <$> Crawler.groups_of c = [3; 3; 3]%nat /\
    ~ NoDup (concat (Crawler.groups_of c)) /\
    (forall l, l ∈ strs ["f"; "g"; "h"; "i"; "j"]%string ->
       l ∈ ten_labels /\ l ∉ concat (Crawler.groups_of c)).
Proof.
  eexists. split; [vm_compute; reflexivity|].
  split; [vm_compute; reflexivity|].
  split; [vm_compute; reflexivity|].
  split.
  - intros Hnd. apply (bool_decide_pack _) in Hnd. vm_compute in Hnd.
    exact Hnd.
  - intros l Hl. split.
    + apply (bool_decide_unpack _). revert l Hl.
      apply Forall_forall, (bool_decide_unpack _). vm_compute. exact I.
    + revert l Hl.
      apply Forall_forall, (bool_decide_unpack _). vm_compute. exact I.
Qed.

(** C5. When the quotient [len(sub_reddits) // num_steps] is zero, the
    configuration has exactly one label group, and that group holds every
    candidate label. *)
Theorem generate_scraping_config_collapse
    (sub_reddits : list pystr) (cascade_seconds max_entities num_steps : Z) :
  num_steps <> 0 ->
  Z.of_nat (length sub_reddits) / num_steps = 0 ->
  exists c,
    Crawler.generate_scraping_config
      sub_reddits cascade_seconds max_entities num_steps = OK c /\
    Crawler.scraper_configs c
    = [ {| Crawler.scraper_id := str "Reddit.custom";
           Crawler.cadence_seconds := cascade_seconds;
           Crawler.labels_to_scrape :=
             [ {| Crawler.label_choices := sub_reddits;
                  Crawler.max_data_entities := max_entities |} ] |} ] /\
    Crawler.groups_of c = [sub_reddits].
Proof.
  intros Hn Hq. unfold Crawler.generate_scraping_config, floordiv.
  destruct (Z.eqb_spec num_steps 0) as [|_]; [done|]. simpl bind.
  rewrite Hq. simpl. eexists. repeat split.
Qed.

Lemma generate_scraping_config_collapse_witness :
  exists c,
    Crawler.generate_scraping_config (strs ["a"; "b"]%string) 30 100 5
    = OK c /\
    Crawler.scraper_configs c
    = [ {| Crawler.scraper_id := str "Reddit.custom";
           Crawler.cadence_seconds := 30;
           Crawler.labels_to_scrape :=
             [ {| Crawler.label_choices := strs ["a"; "b"]%string;
                  Crawler.max_data_entities := 100 |} ] |} ] /\
    Crawler.groups_of c = [strs ["a"; "b"]%string].
Proof.
  apply (generate_scraping_config_collapse
           (strs ["a"; "b"]%string) 30 100 5).
  - lia.
  - reflexivity.
Defined.

(** ** Elision tolerance in [_validate_tweet] *)


Section Elision.

Import Twitter.

Lemma elided_intro (tweet_text body pre post : pystr) :
  tweet_text <> body ++ [ellipsis] ->
  tweet_text = pre ++ body ++ post ->
  elided tweet_text (body ++ [ellipsis]) = true.
Proof.
  intros Hne Hin. unfold elided.
  rewrite !andb_true_iff, negb_true_iff, bool_decide_eq_false.
  rewrite endswith_suffix, contains_infix, slice_drop_last_app.
  repeat split; [done | by exists body | by exists pre, post].
Qed.

(** The elision test passes exactly when the two texts differ, the claim's
    text ends with the ellipsis character, and the claim's text without
    that last character occurs somewhere in the freshly parsed text as a
    contiguous run; the run need not be at the start. *)
Theorem elided_iff (tweet_text verify_text : pystr) :
  elided tweet_text verify_text = true <->
  tweet_text <> verify_text /\
  exists body,
    verify_text = body ++ [ellipsis] /\
    exists pre post, tweet_text = pre ++ body ++ post.
Proof.
  split.
  - unfold elided.
    rewrite !andb_true_iff, negb_true_iff, bool_decide_eq_false.
    rewrite endswith_suffix, contains_infix.
    intros [[Hne [body ->]] Hin]. split; [done|]. exists body. split; [done|].
    by rewrite slice_drop_last_app in Hin.
  - intros [Hne (body & -> & pre & post & Hin)].
    by apply (elided_intro _ body pre post).
Qed.

(** The direction of the claim that the code does meet: a claim text that
    is the fresh text cut short and closed by the ellipsis is accepted. *)
Lemma elided_truncated (tweet_text verify_text : pystr) :
  endswith verify_text [ellipsis] = true ->
  strict_prefix (slice verify_text None (Some (-1))) tweet_text ->
  elided tweet_text verify_text = true \/ tweet_text = verify_text.
Proof.
  intros Hend [[post Hpre] _].
  destruct (decide (tweet_text = verify_text)) as [|Hne]; [by right|left].
  apply endswith_suffix in Hend as [body ->].
  rewrite slice_drop_last_app in Hpre.
  by apply (elided_intro _ body [] post).
Qed.

Lemma elided_iff_witness :
  elided (str "hello world, this is long") (str "hello world" ++ [ellipsis])
  = true.
Proof.
  apply (elided_iff (str "hello world, this is long")
           (str "hello world" ++ [ellipsis])).
  split.
  - intros Heq. vm_compute in Heq. discriminate.
  - exists (str "hello world"). split; [reflexivity|].
    exists [], (str ", this is long"). reflexivity.
Defined.

(** The test passes for the claim text [world...] against the fresh text
    [hello world], of which [world] is not a prefix. *)
Lemma elided_not_only_prefix :
  ~ (elided (str "hello world") (str "world" ++ [ellipsis]) = true <->
     endswith (str "world" ++ [ellipsis]) [ellipsis] = true /\
     strict_prefix (slice (str "world" ++ [ellipsis]) None (Some (-1)))
                   (str "hello world")).
Proof.
  intros [Hto _].
  assert (Happlies :
    elided (str "hello world") (str "world" ++ [ellipsis]) = true)
    by (vm_compute; reflexivity).
  destruct (Hto Happlies) as [_ [Hpre _]].
  apply startswith_prefix in Hpre. vm_compute in Hpre. discriminate.
Qed.

End Elision.

(** ** Tag canonicalisation *)



(** A tag with no text has no first character to replace; it becomes ["#"]. *)
Example corrected_hashtags_empty_tag :
  Twitter.corrected_hashtags [ [] ] = [str "#"].
Proof. reflexivity. Qed.

(** ** Resolution of a scraper id *)

Section ProviderFacts.

Import Provider.

Context {ScraperId : Type} `{Countable ScraperId} {Scraper : Type}.
Variable REDDIT_CUSTOM : ScraperId.

Abbreviation provider := (@ScraperProvider ScraperId _ _ Scraper).


(** The default table resolves exactly the four ids it lists. *)
Lemma DEFAULT_FACTORIES_dom
    (REDDIT_LITE X_FLASH X_MICROWORLDS : ScraperId)
    (RedditLiteScraper MicroworldsTwitterScraper RedditCustomScraper
       : Factory Scraper) :
  dom (DEFAULT_FACTORIES REDDIT_LITE X_FLASH REDDIT_CUSTOM X_MICROWORLDS
         RedditLiteScraper MicroworldsTwitterScraper RedditCustomScraper)
  = ({[ REDDIT_LITE; X_FLASH; REDDIT_CUSTOM; X_MICROWORLDS ]} : gset ScraperId).
Proof.
  unfold DEFAULT_FACTORIES. rewrite !dom_insert_L, dom_empty_L.
  apply set_eq. intros x. set_unfold. tauto.
Qed.

Lemma truthy_lookup (cfg : gmap pystr pystr) (k v : pystr) :
  cfg !! k = Some v -> truthy (Some cfg) = true.
Proof.
  intros Hk. simpl. apply negb_true_iff, bool_decide_eq_false.
  intros ->. by rewrite lookup_empty in Hk.
Qed.

(** C9. An id outside the factory mapping makes [get] fail with the
    assertion's error and no scraper. An id inside the mapping makes [get]
    return what the id's factory builds: called with the four credentials
    of the config for [REDDIT_CUSTOM] when a credential config was given,
    and with no argument otherwise. *)
Theorem get_spec (self : provider) (scraper_id : ScraperId) :
  (factories self !! scraper_id = None ->
   get REDDIT_CUSTOM self scraper_id = Raise AssertionError) /\
  (forall factory, factories self !! scraper_id = Some factory ->
     (scraper_id <> REDDIT_CUSTOM \/ truthy (reddit_config self) = false ->
      get REDDIT_CUSTOM self scraper_id = factory []) /\
     (forall cfg client_id client_secret username password,
        scraper_id = REDDIT_CUSTOM ->
        reddit_config self = Some cfg ->
        cfg !! str "client_id" = Some client_id ->
        cfg !! str "client_secret" = Some client_secret ->
        cfg !! str "username" = Some username ->
        cfg !! str "password" = Some password ->
        get REDDIT_CUSTOM self scraper_id
        = factory (credentials client_id client_secret username password))).
Proof.
  unfold get. split.
  - by intros ->.
  - intros factory ->. split.
    + intros [Hne | Hcfg].
      * by rewrite (bool_decide_eq_false_2 _ Hne).
      * by rewrite Hcfg, andb_false_r.
    + intros cfg c s u p -> Hcfg Hc Hs Hu Hp.
      rewrite (bool_decide_eq_true_2 _ eq_refl), Hcfg.
      rewrite (truthy_lookup _ _ _ Hc). simpl.
      unfold getitem. by rewrite Hc, Hs, Hu, Hp.
Qed.

(** A non-empty config that lacks one of the four keys stops [get] with a
    [KeyError]: the factory is not called. *)
Lemma get_missing_key (self : provider) factory cfg client_id :
  factories self !! REDDIT_CUSTOM = Some factory ->
  reddit_config self = Some cfg ->
  cfg !! str "client_id" = Some client_id ->
  cfg !! str "client_secret" = None ->
  get REDDIT_CUSTOM self REDDIT_CUSTOM = Raise KeyError.
Proof.
  intros Hf Hcfg Hc Hs. unfold get.
  rewrite Hf, (bool_decide_eq_true_2 _ eq_refl), Hcfg.
  rewrite (truthy_lookup _ _ _ Hc). simpl.
  unfold getitem. by rewrite Hc, Hs.
Qed.

End ProviderFacts.

(** ** The parser and the validator *)

Section ScraperFacts.

Import Twitter.

Context {World : Type} (env : Env World).

Lemma ValidationResult_init_size (ok : bool) (why : pystr) (n : Z) :
  ValidationResult_init env ok why (Some n)
  = OK (mkValidationResult ok why n).
Proof. reflexivity. Qed.


Lemma try_except_absorbs {A} (body : exc A) (a : A) :
  exists r, try_except body (fun _ => OK a) = OK r.
Proof. destruct body; simpl; eauto. Qed.

Lemma parse_total (html url : pystr) :
  exists tweet, _best_effort_parse_tweet_from_html env html url = OK tweet.
Proof. apply try_except_absorbs. Qed.

(** What a parsed tweet is made of. *)
Lemma parse_found (html url : pystr) (tweet : XContent) :
  _best_effort_parse_tweet_from_html env html url = OK (Some tweet) ->
  exists soup parsed,
    BeautifulSoup env html = OK soup /\
    get_user_from_twitter_url env url = OK (Some (username tweet)) /\
    Twitter.url tweet = url /\
    timestamp tweet
    = dt.replace_tzinfo
        (dt.replace_microsecond (dt.replace_second parsed 0) 0)
        (Some dt.utc) /\
    exists anchors : list bs4.Node,
      tweet_hashtags tweet = corrected_hashtags (bs4.text <$> anchors) /\
      anchors `sublist_of` bs4.descendants soup.
Proof.
  unfold _best_effort_parse_tweet_from_html.
  destruct (BeautifulSoup env html) as [soup|]; simpl; [|discriminate].
  destruct (get_user_from_twitter_url env url) as [[user|]|]; simpl;
    [|discriminate..].
  destruct (bs4.find soup _) as [e|] in |- *; simpl; [|discriminate].
  destruct (tweet_text_of _ _) as [txt|]; simpl; [|discriminate].
  destruct (bs4.find soup (bs4.name_is _)) as [t|]; simpl; [|discriminate].
  destruct (bs4.getitem t _) as [stamp|]; simpl; [|discriminate].
  destruct (strptime env stamp _) as [parsed|]; simpl; [|discriminate].
  intros [= <-]. simpl. exists soup, parsed. repeat split.
  eexists. split; [reflexivity|]. unfold bs4.find_all.
  apply filter_sublist.
Qed.


Lemma verdicts_size (entity : DataEntity) (r : ValidationResult) :
  r ∈ verdicts entity ->
  content_size_bytes_validated r = content_size_bytes entity.
Proof.
  unfold verdicts. intros Hr.
  apply list_elem_of_fmap in Hr as (v & -> & _). reflexivity.
Qed.

Lemma validate_tweet_verdict (tweet : XContent) (entity : DataEntity) :
  exists r, _validate_tweet env tweet entity = OK r /\ r ∈ verdicts entity.
Proof.
  unfold _validate_tweet, verdicts.
  destruct (from_data_entity env entity) as [tweet_to_verify|].
  2: { eexists. split; [reflexivity|]. simpl. set_solver. }
  destruct (negb _).
  { eexists. split; [reflexivity|]. simpl. set_solver. }
  destruct (to_data_entity env _) as [tweet_entity|]; simpl.
  2: { eexists. split; [reflexivity|]. set_solver. }
  destruct (are_non_content_fields_equal env _ _) as [[|]|]; simpl;
    (eexists; split; [reflexivity|]); set_solver.
Qed.

Lemma validate_tweet_total (tweet : XContent) (entity : DataEntity) :
  exists r,
    _validate_tweet env tweet entity = OK r /\
    content_size_bytes_validated r = content_size_bytes entity.
Proof.
  destruct (validate_tweet_verdict tweet entity) as (r & Hr & Hin).
  exists r. split; [done|]. by apply verdicts_size.
Qed.

(** *** One turn of the loop *)


(** The invalid-URI branch stops the call before any page is loaded. *)
Lemma validate_entity_invalid_uri e results w :
  invalid_uri env e ->
  validate_entity env e results w = (Raise (invalid_uri_error env), w).
Proof.
  unfold invalid_uri, validate_entity. intros ->. simpl.
  unfold liftM, ValidationResult_init, invalid_uri_error.
  by destruct (content_size_bytes_validated_default env).
Qed.

Lemma validate_entity_fetch_failed e results w err w' :
  valid_uri env e ->
  tweet_inner_html env (uri e) w = (Raise err, w') ->
  validate_entity env e results w = (OK (results ++ [fetch_failed e]), w').
Proof.
  unfold valid_uri, validate_entity. intros -> Hfetch. simpl.
  by rewrite Hfetch.
Qed.

(** Every other branch appends one result, after exactly one page load. *)
Lemma validate_entity_valid_uri e results w :
  valid_uri env e ->
  exists r,
    validate_entity env e results w = (OK (results ++ [r]), loaded env w e) /\
    content_size_bytes_validated r = content_size_bytes e.
Proof.
  unfold valid_uri, validate_entity, loaded. intros ->. simpl.
  destruct (tweet_inner_html env (uri e) w) as [[html|err] w']; simpl.
  - unfold liftM.
    destruct (parse_total html (uri e)) as [[tweet|] ->]; simpl.
    + destruct (validate_tweet_total tweet e) as (r & -> & Hr). simpl.
      by exists r.
    + eexists. split; [reflexivity|done].
  - eexists. split; [reflexivity|done].
Qed.

(** *** The whole loop *)

Lemma validate_loop_valid es results w :
  Forall (valid_uri env) es ->
  exists rs,
    validate_loop env es results w = (OK (results ++ rs), foldl (loaded env) w es) /\
    Forall2 (fun e r => content_size_bytes_validated r = content_size_bytes e)
            es rs.
Proof.
  intros Hes. revert results w.
  induction Hes as [|e es He _ IH]; intros results w; simpl.
  - exists []. by rewrite app_nil_r.
  - destruct (validate_entity_valid_uri e results w He) as (r & Hstep & Hr).
    unfold bindM. rewrite Hstep.
    destruct (IH (results ++ [r]) (loaded env w e)) as (rs & -> & Hrs).
    exists (r :: rs). rewrite <- app_assoc. split; [done|].
    by constructor.
Qed.

Lemma validate_loop_invalid es results w :
  Exists (invalid_uri env) es ->
  raises (fst (validate_loop env es results w)).
Proof.
  intros Hes. revert results w.
  induction es as [|e es IH]; intros results w; [by inversion Hes|].
  simpl. unfold bindM.
  destruct (is_valid_twitter_url env (uri e)) eqn:He.
  - destruct (validate_entity_valid_uri e results w He) as (r & -> & _).
    apply IH. inversion Hes as [? ? Hbad|]; [|done].
    unfold invalid_uri in Hbad. congruence.
  - rewrite (validate_entity_invalid_uri e results w He). by eexists.
Qed.

Lemma validate_unfold es :
  validate env es = validate_loop env es [].
Proof. by destruct es. Qed.

(** When every URI is well-formed, [validate] answers each entity once, in
    order, and loads each entity's page once, in order. *)
Lemma validate_valid_uris es w :
  Forall (valid_uri env) es ->
  exists rs,
    validate env es w = (OK rs, foldl (loaded env) w es) /\
    length rs = length es /\
    Forall2 (fun e r => content_size_bytes_validated r = content_size_bytes e)
            es rs.
Proof.
  intros Hes. rewrite validate_unfold.
  destruct (validate_loop_valid es [] w Hes) as (rs & Hrun & Hrs).
  exists rs. split; [done|]. split; [|done].
  symmetry. by eapply Forall2_length.
Qed.

End ScraperFacts.


(** ** The sample page and entity *)

Example parse_page :
  Twitter._best_effort_parse_tweet_from_html Sample.env (str "<div></div>")
    Sample.tweet_uri
  = OK (Some Sample.stored_tweet).
Proof. vm_compute. reflexivity. Qed.

Example validate_good_entity :
  Twitter.validate Sample.env [Sample.good_entity] []
  = (OK [ {| Twitter.is_valid := true;
             Twitter.reason := str "Good job, you honest miner!";
             Twitter.content_size_bytes_validated := 484 |} ],
     [Sample.tweet_uri]).
Proof. vm_compute. reflexivity. Qed.

(** ** The validate call boundary *)

(** C1 (the code departs from the claim). An entity whose URI is not a
    valid Twitter URL makes the whole [validate] call raise: no list of
    results comes back, whatever the other entities are. *)
Theorem validate_raises_on_invalid_uri
    {World : Type} (env : Twitter.Env World)
    (entities : list Twitter.DataEntity) (w : World) :
  (exists e, e ∈ entities /\ invalid_uri env e) ->
  raises (fst (Twitter.validate env entities w)).
Proof.
  intros (e & Hin & He). rewrite validate_unfold.
  apply validate_loop_invalid, Exists_exists. eauto.
Qed.

Lemma validate_raises_on_invalid_uri_witness :
  raises (fst (Twitter.validate Sample.env
                 [Sample.good_entity; Sample.bad_uri_entity] [])).
Proof.
  apply (validate_raises_on_invalid_uri Sample.env
           [Sample.good_entity; Sample.bad_uri_entity] []).
  exists Sample.bad_uri_entity. split.
  - apply list_elem_of_In. simpl. tauto.
  - reflexivity.
Defined.

(** C2 (the code departs from the claim). For an entity whose URI is not a
    valid Twitter URL no page is loaded, but no result is produced either:
    the call raises in the branch that was to append the "Invalid URI."
    result. *)
Theorem validate_invalid_uri_no_result
    {World : Type} (env : Twitter.Env World)
    (entity : Twitter.DataEntity) (w : World) :
  invalid_uri env entity ->
  Twitter.validate env [entity] w = (Raise (invalid_uri_error env), w).
Proof.
  intros He. simpl. unfold Twitter.bindM.
  by rewrite (validate_entity_invalid_uri env entity [] w He).
Qed.

Lemma validate_invalid_uri_no_result_witness :
  Twitter.validate Sample.env [Sample.bad_uri_entity] []
  = (Raise ValidationError, []).
Proof.
  apply (validate_invalid_uri_no_result Sample.env Sample.bad_uri_entity []).
  reflexivity.
Defined.

(** C6. For an entity with a well-formed URI whose page load fails, the
    loop appends one result, invalid, with the fetch-failure reason and the
    entity's declared size, and goes on to the next entity from the world
    that the single failed load left: the load is not tried again. A call
    with that entity alone returns exactly that result. *)
Theorem validate_fetch_failure
    {World : Type} (env : Twitter.Env World)
    (entity : Twitter.DataEntity) (rest : list Twitter.DataEntity)
    (results : list Twitter.ValidationResult) (w w' : World) (err : PyExc) :
  valid_uri env entity ->
  Twitter.tweet_inner_html env (Twitter.uri entity) w = (Raise err, w') ->
  Twitter.validate_loop env (entity :: rest) results w
  = Twitter.validate_loop env rest (results ++ [fetch_failed entity]) w' /\
  Twitter.validate env [entity] w = (OK [fetch_failed entity], w') /\
  Twitter.is_valid (fetch_failed entity) = false /\
  Twitter.content_size_bytes_validated (fetch_failed entity)
  = Twitter.content_size_bytes entity.
Proof.
  intros He Hfetch.
  pose proof (validate_entity_fetch_failed env entity) as Hstep.
  repeat split.
  - simpl. unfold Twitter.bindM.
    by rewrite (Hstep results w err w' He Hfetch).
  - simpl. unfold Twitter.bindM.
    by rewrite (Hstep [] w err w' He Hfetch).
Qed.

Lemma validate_fetch_failure_witness :
  Twitter.validate Sample.env [Sample.unreachable_entity] []
  = (OK [fetch_failed Sample.unreachable_entity],
     [Twitter.uri Sample.unreachable_entity]).
Proof.
  apply (validate_fetch_failure Sample.env Sample.unreachable_entity
           [] [] [] [Twitter.uri Sample.unreachable_entity] (OtherError 0)).
  - reflexivity.
  - reflexivity.
Defined.

(** C10. Whatever branch [_validate_tweet] takes (decode failure, content
    mismatch, metadata mismatch, re-encoding failure, or success), it
    returns a result, and the result's validated size is the entity's
    declared size. *)
Theorem validate_tweet_size
    {World : Type} (env : Twitter.Env World)
    (tweet : Twitter.XContent) (entity : Twitter.DataEntity) :
  exists r,
    Twitter._validate_tweet env tweet entity = OK r /\
    r ∈ verdicts entity /\
    Twitter.content_size_bytes_validated r
    = Twitter.content_size_bytes entity.
Proof.
  destruct (validate_tweet_verdict env tweet entity) as (r & Hr & Hin).
  exists r. split; [done|]. split; [done|]. by apply verdicts_size.
Qed.


Lemma get_spec_witness :
  Provider.get SampleProvider.REDDIT_CUSTOM SampleProvider.provider
    SampleProvider.X_APIDOJO
  = Raise AssertionError /\
  Provider.get SampleProvider.REDDIT_CUSTOM SampleProvider.provider
    SampleProvider.X_FLASH
  = OK SampleProvider.MicroworldsTwitter /\
  Provider.get SampleProvider.REDDIT_CUSTOM SampleProvider.provider
    SampleProvider.REDDIT_CUSTOM
  = OK (SampleProvider.RedditCustom
          (credentials (str "id") (str "secret") (str "user") (str "pass"))).
Proof.
  split; [|split].
  - apply (get_spec SampleProvider.REDDIT_CUSTOM SampleProvider.provider
             SampleProvider.X_APIDOJO).
    vm_compute. reflexivity.
  - destruct (get_spec SampleProvider.REDDIT_CUSTOM SampleProvider.provider
                SampleProvider.X_FLASH) as [_ Hin].
    destruct (Hin (SampleProvider.no_arguments SampleProvider.MicroworldsTwitter))
      as [Hplain _].
    + vm_compute. reflexivity.
    + rewrite Hplain; [reflexivity|]. left. discriminate.
  - destruct (get_spec SampleProvider.REDDIT_CUSTOM SampleProvider.provider
                SampleProvider.REDDIT_CUSTOM) as [_ Hin].
    destruct (Hin (fun kwargs => OK (SampleProvider.RedditCustom kwargs)))
      as [_ Hcreds].
    + vm_compute. reflexivity.
    + apply (Hcreds SampleProvider.keys); vm_compute; reflexivity.
Defined.

(* ===================================================================== *)
(** * Further properties of the code                                      *)
(* ===================================================================== *)

(** ** Windows of a list *)

Section Windows.

Context {A : Type}.
Implicit Types (l : list A) (x : A).

Lemma slice_infix l (a b : option Z) :
  exists pre post, l = pre ++ slice l a b ++ post.
Proof.
  unfold slice.
  match goal with
  | |- context [take ?k (drop ?i l)] =>
      exists (take i l), (drop k (drop i l));
      by rewrite (take_drop k), take_drop
  end.
Qed.

Lemma window_length l (i q : nat) :
  (i + q <= length l)%nat -> length (take q (drop i l)) = q.
Proof. intros Hin. rewrite length_take, length_drop. lia. Qed.

(** The window at [i + 1] is the window at [i] moved by one item. *)
Lemma window_shift l (i q : nat) :
  drop 1 (take q (drop i l)) = take (q - 1) (take q (drop (S i) l)).
Proof.
  rewrite take_take, Nat.min_l by lia.
  destruct q as [|q]; [by rewrite !take_0|].
  replace (S q - 1)%nat with q by lia.
  replace (S i) with (i + 1)%nat by lia. rewrite <- drop_drop.
  destruct (drop i l) as [|x t]; simpl.
  - by rewrite take_nil.
  - by rewrite !drop_0.
Qed.

(** Two neighbouring windows of width at least 2 share an item: the second
    of the one is the first of the other. *)
Lemma window_shared l (i q : nat) :
  (2 <= q)%nat -> (S i + q <= length l)%nat ->
  exists x, take q (drop i l) !! 1%nat = Some x
            /\ take q (drop (S i) l) !! 0%nat = Some x.
Proof.
  intros Hq Hfit.
  destruct (lookup_lt_is_Some_2 l (S i)) as [x Hx]; [lia|].
  exists x. rewrite !lookup_take_lt, !lookup_drop by lia.
  split; [|by rewrite Nat.add_0_r].
  by replace (i + 1)%nat with (S i) by lia.
Qed.

(** The [n] windows of width [q] that start at 0, 1, ..., [n - 1] cover
    the first [n + q - 1] items and nothing else. *)
Lemma windows_cover l (n q : nat) x :
  (0 < n)%nat -> (0 < q)%nat ->
  x ∈ concat ((fun i => take q (drop i l)) <$> seq 0 n)
  <-> x ∈ take (n + q - 1) l.
Proof.
  intros Hn Hq. rewrite list_elem_of_In, in_concat. split.
  - intros (g & Hg & Hx).
    apply list_elem_of_In, list_elem_of_fmap in Hg as (i & -> & Hi).
    apply elem_of_seq in Hi.
    apply list_elem_of_In, elem_of_take in Hx as (j & Hj & Hlt).
    rewrite lookup_drop in Hj.
    apply elem_of_take. exists (i + j)%nat. split; [done|lia].
  - intros Hx. apply elem_of_take in Hx as (k & Hk & Hlt).
    exists (take q (drop (Nat.min k (n - 1)) l)). split.
    + apply list_elem_of_In, list_elem_of_fmap.
      exists (Nat.min k (n - 1)). split; [done|].
      apply elem_of_seq. lia.
    + apply list_elem_of_In, elem_of_take.
      exists (k - Nat.min k (n - 1))%nat. split; [|lia].
      rewrite lookup_drop.
      by replace (Nat.min k (n - 1) + (k - Nat.min k (n - 1)))%nat
        with k by lia.
Qed.

End Windows.

(** A quotient of a positive by a negative number is negative. *)
Lemma div_pos_neg (a b : Z) : 0 < a -> b < 0 -> a / b < 0.
Proof.
  intros Ha Hb.
  pose proof (Z_div_mod_eq_full a b) as Hdm.
  pose proof (Z.mod_neg_bound a b Hb) as Hr.
  nia.
Qed.

(** The quotient leaves room for all the windows. *)
Lemma windows_fit (len n : Z) (i : nat) :
  0 < n -> 0 <= len -> len / n <> 0 -> (i < Z.to_nat n)%nat ->
  Z.of_nat i + len / n <= len.
Proof.
  intros Hn Hlen Hq Hi.
  assert (0 <= len / n) by (apply Z.div_pos; lia).
  assert (n * (len / n) <= len) by (apply Z.mul_div_le; lia).
  nia.
Qed.

(** ** More on [generate_scraping_config] *)

(** X1. [generate_scraping_config] raises exactly when [num_steps] is 0, and
    then the exception is the [ZeroDivisionError] of the division. *)
Theorem generate_scraping_config_raises_iff
    (sub_reddits : list pystr) (cascade_seconds max_entities num_steps : Z)
    (e : PyExc) :
  Crawler.generate_scraping_config
    sub_reddits cascade_seconds max_entities num_steps = Raise e
  <-> num_steps = 0 /\ e = ZeroDivisionError.
Proof.
  unfold Crawler.generate_scraping_config, floordiv.
  destruct (Z.eqb_spec num_steps 0) as [->|Hn]; simpl.
  - split; [intros [= <-]; done | intros [_ ->]; done].
  - split; [discriminate | intros [? _]; done].
Qed.

Lemma generate_scraping_config_raises_iff_witness :
  Crawler.generate_scraping_config ten_labels 30 100 0
  = Raise ZeroDivisionError.
Proof.
  apply (generate_scraping_config_raises_iff ten_labels 30 100 0).
  split; reflexivity.
Defined.

(** X2. With a positive step count and a nonzero quotient [q], the call
    returns exactly [num_steps] label groups, each of exactly [q] labels. *)
Theorem generate_scraping_config_group_shape
    (sub_reddits : list pystr) (cascade_seconds max_entities num_steps : Z) :
  0 < num_steps ->
  Z.of_nat (length sub_reddits) / num_steps <> 0 ->
  exists c,
    Crawler.generate_scraping_config
      sub_reddits cascade_seconds max_entities num_steps = OK c /\
    length (Crawler.groups_of c) = Z.to_nat num_steps /\
    Forall (fun g => Z.of_nat (length g)
                     = Z.of_nat (length sub_reddits) / num_steps)
           (Crawler.groups_of c).
Proof.
  intros Hn Hq.
  destruct (generate_scraping_config_windows
              sub_reddits cascade_seconds max_entities num_steps Hn Hq)
    as (c & Hc & _).
  exists c. split; [done|].
  destruct (generate_scraping_config_group_sizes
              sub_reddits cascade_seconds max_entities num_steps c Hn Hq Hc)
    as [Hsizes Hcount].
  done.
Qed.

Lemma generate_scraping_config_group_shape_witness :
  exists c,
    Crawler.generate_scraping_config ten_labels 30 100 3 = OK c /\
    length (Crawler.groups_of c) = Z.to_nat 3 /\
    Forall (fun g => Z.of_nat (length g) = Z.of_nat (length ten_labels) / 3)
           (Crawler.groups_of c).
Proof.
  apply (generate_scraping_config_group_shape ten_labels 30 100 3).
  - lia.
  - vm_compute. discriminate.
Defined.

(** X3. Under the same conditions, each group is the one before it moved
    by a single label: without its first label, group [i] is the first
    [q - 1] labels of group [i + 1]. When [q] is at least 2 the two groups
    therefore share a label: the second label of group [i] is the first
    label of group [i + 1]. *)
Theorem generate_scraping_config_groups_shifted
    (sub_reddits : list pystr) (cascade_seconds max_entities num_steps : Z)
    (c : Crawler.ScrapingConfig) (i : nat) :
  0 < num_steps ->
  Z.of_nat (length sub_reddits) / num_steps <> 0 ->
  Crawler.generate_scraping_config
    sub_reddits cascade_seconds max_entities num_steps = OK c ->
  (S i < Z.to_nat num_steps)%nat ->
  exists g g',
    Crawler.groups_of c !! i = Some g /\
    Crawler.groups_of c !! S i = Some g' /\
    drop 1 g
    = take (Z.to_nat (Z.of_nat (length sub_reddits) / num_steps) - 1) g' /\
    (2 <= Z.of_nat (length sub_reddits) / num_steps ->
     exists label, g !! 1%nat = Some label /\ g' !! 0%nat = Some label).
Proof.
  intros Hn Hq Hc Hi.
  destruct (generate_scraping_config_windows
              sub_reddits cascade_seconds max_entities num_steps Hn Hq)
    as (c' & Hc' & Hg).
  rewrite Hc in Hc'. injection Hc' as <-. rewrite Hg.
  pose proof (windows_fit (Z.of_nat (length sub_reddits)) num_steps (S i))
    as Hfit.
  set (q := Z.to_nat _).
  exists (take q (drop i sub_reddits)), (take q (drop (S i) sub_reddits)).
  split; [|split; [|split]].
  - rewrite list_lookup_fmap, lookup_seq_lt by lia. done.
  - rewrite list_lookup_fmap, lookup_seq_lt by lia. done.
  - apply window_shift.
  - intros Hq2. apply window_shared; unfold q; lia.
Qed.

Lemma generate_scraping_config_groups_shifted_witness :
  exists g g' label,
    Crawler.groups_of windows_10_3 !! 0%nat = Some g /\
    Crawler.groups_of windows_10_3 !! 1%nat = Some g' /\
    g !! 1%nat = Some label /\ g' !! 0%nat = Some label.
Proof.
  destruct (generate_scraping_config_groups_shifted
              ten_labels 30 100 3 windows_10_3 0)
    as (g & g' & Hg & Hg' & _ & Hshared).
  - lia.
  - vm_compute. discriminate.
  - vm_compute. reflexivity.
  - vm_compute. lia.
  - destruct Hshared as (label & Hl & Hl').
    + vm_compute. discriminate.
    + by exists g, g', label.
Defined.

(** X4. Under the same conditions, the labels that occur in some group are
    exactly the first [num_steps + q - 1] candidate labels: a later
    candidate is in no group. *)
Theorem generate_scraping_config_coverage
    (sub_reddits : list pystr) (cascade_seconds max_entities num_steps : Z)
    (c : Crawler.ScrapingConfig) (label : pystr) :
  0 < num_steps ->
  Z.of_nat (length sub_reddits) / num_steps <> 0 ->
  Crawler.generate_scraping_config
    sub_reddits cascade_seconds max_entities num_steps = OK c ->
  label ∈ concat (Crawler.groups_of c)
  <-> label ∈ take (Z.to_nat (num_steps
                              + Z.of_nat (length sub_reddits) / num_steps
                              - 1))
                   sub_reddits.
Proof.
  intros Hn Hq Hc.
  destruct (generate_scraping_config_windows
              sub_reddits cascade_seconds max_entities num_steps Hn Hq)
    as (c' & Hc' & Hg).
  rewrite Hc in Hc'. injection Hc' as <-. rewrite Hg.
  assert (0 <= Z.of_nat (length sub_reddits) / num_steps)
    by (apply Z.div_pos; lia).
  rewrite windows_cover by lia.
  by replace (Z.to_nat num_steps
              + Z.to_nat (Z.of_nat (length sub_reddits) / num_steps) - 1)%nat
    with (Z.to_nat (num_steps + Z.of_nat (length sub_reddits) / num_steps - 1))
    by lia.
Qed.

Lemma generate_scraping_config_coverage_witness :
  str "e" ∈ concat (Crawler.groups_of windows_10_3).
Proof.
  apply (generate_scraping_config_coverage
           ten_labels 30 100 3 windows_10_3 (str "e")).
  - lia.
  - vm_compute. discriminate.
  - vm_compute. reflexivity.
  - apply (bool_decide_unpack _). vm_compute. exact I.
Defined.

(** X5. A negative step count with at least one candidate label gives a
    configuration with no label group at all. *)
Theorem generate_scraping_config_negative_steps
    (sub_reddits : list pystr) (cascade_seconds max_entities num_steps : Z) :
  num_steps < 0 ->
  sub_reddits <> [] ->
  Crawler.generate_scraping_config
    sub_reddits cascade_seconds max_entities num_steps
  = OK {| Crawler.scraper_configs :=
            [ {| Crawler.scraper_id := str "Reddit.custom";
                 Crawler.cadence_seconds := cascade_seconds;
                 Crawler.labels_to_scrape := [] |} ] |}.
Proof.
  intros Hn Hl. unfold Crawler.generate_scraping_config, floordiv.
  destruct (Z.eqb_spec num_steps 0) as [|_]; [lia|]. simpl bind.
  assert (Z.of_nat (length sub_reddits) / num_steps < 0) as Hq.
  { apply div_pos_neg; [|done]. destruct sub_reddits; [done|simpl; lia]. }
  destruct (Z.eqb_spec (Z.of_nat (length sub_reddits) / num_steps) 0);
    [lia|].
  unfold range. by replace (Z.to_nat num_steps) with 0%nat by lia.
Qed.

Lemma generate_scraping_config_negative_steps_witness :
  Crawler.generate_scraping_config ten_labels 30 100 (-3)
  = OK {| Crawler.scraper_configs :=
            [ {| Crawler.scraper_id := str "Reddit.custom";
                 Crawler.cadence_seconds := 30;
                 Crawler.labels_to_scrape := [] |} ] |}.
Proof.
  apply (generate_scraping_config_negative_steps ten_labels 30 100 (-3)).
  - lia.
  - discriminate.
Defined.

(** X6. For every nonzero step count the call returns a configuration, each
    of its label groups is a run of consecutive candidate labels, and each
    group carries the quota [max_entities]. *)
Theorem generate_scraping_config_groups_are_runs
    (sub_reddits : list pystr) (cascade_seconds max_entities num_steps : Z) :
  num_steps <> 0 ->
  exists c,
    Crawler.generate_scraping_config
      sub_reddits cascade_seconds max_entities num_steps = OK c /\
    Forall (fun g => exists pre post, sub_reddits = pre ++ g ++ post)
           (Crawler.groups_of c) /\
    Forall (fun sc =>
              Forall (fun g => Crawler.max_data_entities g = max_entities)
                     (Crawler.labels_to_scrape sc))
           (Crawler.scraper_configs c).
Proof.
  intros Hn. unfold Crawler.generate_scraping_config, floordiv.
  destruct (Z.eqb_spec num_steps 0) as [|_]; [done|]. simpl bind.
  eexists. split; [reflexivity|].
  unfold Crawler.groups_of. simpl. rewrite app_nil_r.
  destruct (Z.eqb_spec (Z.of_nat (length sub_reddits) / num_steps) 0)
    as [_|_].
  - split.
    + repeat constructor. exists [], []. by rewrite app_nil_r.
    + by repeat constructor.
  - split.
    + rewrite <- list_fmap_compose. apply Forall_fmap, Forall_forall.
      intros i _. simpl. apply slice_infix.
    + repeat constructor. apply Forall_fmap, Forall_forall. by intros i _.
Qed.

Lemma generate_scraping_config_groups_are_runs_witness :
  exists c,
    Crawler.generate_scraping_config ten_labels 30 100 3 = OK c /\
    Forall (fun g => exists pre post, ten_labels = pre ++ g ++ post)
           (Crawler.groups_of c) /\
    Forall (fun sc =>
              Forall (fun g => Crawler.max_data_entities g = 100)
                     (Crawler.labels_to_scrape sc))
           (Crawler.scraper_configs c).
Proof.
  apply (generate_scraping_config_groups_are_runs ten_labels 30 100 3). lia.
Defined.

(** ** More on [ScraperProvider] *)

Section ProviderExtras.

Import Provider.

Context {ScraperId : Type} `{Countable ScraperId} {Scraper : Type}.
Variables REDDIT_LITE X_FLASH REDDIT_CUSTOM X_MICROWORLDS : ScraperId.
Variables RedditLiteScraper MicroworldsTwitterScraper RedditCustomScraper
  : Factory Scraper.

Abbreviation default_provider reddit_config :=
  (init REDDIT_LITE X_FLASH REDDIT_CUSTOM X_MICROWORLDS
     RedditLiteScraper MicroworldsTwitterScraper RedditCustomScraper
     None reddit_config).

(** X7. For [REDDIT_CUSTOM] and a non-empty config that lacks one of the
    four credential keys, [get] raises [KeyError]; the factory's result is
    not returned. *)
Theorem get_missing_credential
    (self : @ScraperProvider ScraperId _ _ Scraper)
    (factory : Factory Scraper) (cfg : gmap pystr pystr) (k : pystr) :
  factories self !! REDDIT_CUSTOM = Some factory ->
  reddit_config self = Some cfg ->
  cfg <> ∅ ->
  k ∈ [str "client_id"; str "client_secret"; str "username"; str "password"] ->
  cfg !! k = None ->
  get REDDIT_CUSTOM self REDDIT_CUSTOM = Raise KeyError.
Proof.
  intros Hf Hcfg Hne Hk Hnone. unfold get.
  rewrite Hf, (bool_decide_eq_true_2 _ eq_refl), Hcfg. simpl.
  rewrite (bool_decide_eq_false_2 _ Hne). simpl. unfold getitem.
  destruct (cfg !! str "client_id") as [c|] eqn:Hc; [simpl|done].
  destruct (cfg !! str "client_secret") as [s|] eqn:Hs; [simpl|done].
  destruct (cfg !! str "username") as [u|] eqn:Hu; [simpl|done].
  destruct (cfg !! str "password") as [p|] eqn:Hp; [simpl|done].
  exfalso. repeat (apply elem_of_cons in Hk as [->|Hk]; [congruence|]).
  by apply elem_of_nil in Hk.
Qed.

(** X8. With the default table, the old id [X_FLASH] resolves to the same
    factory as [X_MICROWORLDS], called without arguments. *)
Theorem get_x_flash_is_microworlds (reddit_config : option (gmap pystr pystr)) :
  X_FLASH <> REDDIT_CUSTOM ->
  X_MICROWORLDS <> REDDIT_CUSTOM ->
  get REDDIT_CUSTOM (default_provider reddit_config) X_FLASH
  = MicroworldsTwitterScraper [] /\
  get REDDIT_CUSTOM (default_provider reddit_config) X_MICROWORLDS
  = MicroworldsTwitterScraper [].
Proof.
  intros Hflash Hmicro. unfold get, init, DEFAULT_FACTORIES. simpl.
  rewrite (bool_decide_eq_false_2 _ Hflash).
  rewrite (bool_decide_eq_false_2 _ Hmicro). simpl.
  rewrite lookup_insert_eq. split; [|done].
  destruct (decide (X_MICROWORLDS = X_FLASH)) as [->|Hne].
  - by rewrite lookup_insert_eq.
  - rewrite lookup_insert_ne by done.
    rewrite lookup_insert_ne by done.
    by rewrite lookup_insert_eq.
Qed.

(** X9. With the default table, an id other than the four listed ones is
    refused with [AssertionError], whatever the credential config is. *)
Theorem get_default_unknown_id
    (reddit_config : option (gmap pystr pystr)) (scraper_id : ScraperId) :
  scraper_id ∉ [REDDIT_LITE; X_FLASH; REDDIT_CUSTOM; X_MICROWORLDS] ->
  get REDDIT_CUSTOM (default_provider reddit_config) scraper_id
  = Raise AssertionError.
Proof.
  intros Hid. unfold get, init, DEFAULT_FACTORIES. simpl.
  rewrite !lookup_insert_ne, lookup_empty; [done|..];
    intros ->; apply Hid; set_unfold; tauto.
Qed.

(** X10. An empty credential dict counts as no config: every id resolves
    as it does without a config, so [REDDIT_CUSTOM] is built with no
    credentials. *)
Theorem get_empty_config
    (fs : gmap ScraperId (Factory Scraper)) (scraper_id : ScraperId) :
  get REDDIT_CUSTOM {| factories := fs; reddit_config := Some ∅ |} scraper_id
  = get REDDIT_CUSTOM {| factories := fs; reddit_config := None |} scraper_id.
Proof.
  unfold get. simpl. destruct (fs !! scraper_id); [|done].
  by rewrite (bool_decide_eq_true_2 _ eq_refl), !andb_false_r.
Qed.

End ProviderExtras.

Lemma get_missing_credential_witness :
  Provider.get SampleProvider.REDDIT_CUSTOM
    {| Provider.factories := SampleProvider.factories;
       Provider.reddit_config :=
         Some (delete (str "password") SampleProvider.keys) |}
    SampleProvider.REDDIT_CUSTOM
  = Raise KeyError.
Proof.
  apply (get_missing_credential SampleProvider.REDDIT_CUSTOM
           {| Provider.factories := SampleProvider.factories;
              Provider.reddit_config :=
                Some (delete (str "password") SampleProvider.keys) |}
           (fun kwargs => OK (SampleProvider.RedditCustom kwargs))
           (delete (str "password") SampleProvider.keys)
           (str "password")).
  - vm_compute. reflexivity.
  - reflexivity.
  - intros Hempty.
    assert (delete (str "password") SampleProvider.keys !! str "username"
            = Some (str "user")) as Hu by (vm_compute; reflexivity).
    rewrite Hempty, lookup_empty in Hu. discriminate.
  - set_unfold. tauto.
  - vm_compute. reflexivity.
Defined.

Lemma get_x_flash_is_microworlds_witness :
  Provider.get SampleProvider.REDDIT_CUSTOM SampleProvider.provider
    SampleProvider.X_FLASH
  = OK SampleProvider.MicroworldsTwitter /\
  Provider.get SampleProvider.REDDIT_CUSTOM SampleProvider.provider
    SampleProvider.X_MICROWORLDS
  = OK SampleProvider.MicroworldsTwitter.
Proof.
  apply (get_x_flash_is_microworlds
           SampleProvider.REDDIT_LITE SampleProvider.X_FLASH
           SampleProvider.REDDIT_CUSTOM SampleProvider.X_MICROWORLDS
           (SampleProvider.no_arguments SampleProvider.RedditLite)
           (SampleProvider.no_arguments SampleProvider.MicroworldsTwitter)
           (fun kwargs => OK (SampleProvider.RedditCustom kwargs))
           (Some SampleProvider.keys)); discriminate.
Defined.

Lemma get_default_unknown_id_witness :
  Provider.get SampleProvider.REDDIT_CUSTOM SampleProvider.provider
    SampleProvider.X_APIDOJO
  = Raise AssertionError.
Proof.
  apply (get_default_unknown_id
           SampleProvider.REDDIT_LITE SampleProvider.X_FLASH
           SampleProvider.REDDIT_CUSTOM SampleProvider.X_MICROWORLDS
           (SampleProvider.no_arguments SampleProvider.RedditLite)
           (SampleProvider.no_arguments SampleProvider.MicroworldsTwitter)
           (fun kwargs => OK (SampleProvider.RedditCustom kwargs))
           (Some SampleProvider.keys) SampleProvider.X_APIDOJO).
  intros Hin.
  repeat (apply elem_of_cons in Hin as [Hin|Hin]; [discriminate|]).
  by apply elem_of_nil in Hin.
Defined.

(** ** More on the parser *)

Section ParserExtras.

Import Twitter Notion.

Context {World : Type} (env : Env World).

(** The value of the text loop, from any starting text. *)
Lemma tweet_text_of_value (elements : list bs4.Node) (tweet_text : pystr) :
  tweet_text_of elements tweet_text
  = OK (tweet_text ++ concat (piece_text <$> elements)).
Proof.
  revert tweet_text. induction elements as [|element rest IH];
    intros tweet_text; simpl.
  - by rewrite app_nil_r.
  - unfold bs4.has_attr, bs4.getitem, piece_text.
    destruct (bs4.get element (str "alt")) as [alt|]; simpl.
    + rewrite IH. unfold piece_text. by rewrite <- !app_assoc.
    + rewrite IH. unfold piece_text. by rewrite <- !app_assoc.
Qed.

(** X11. The loop that builds the tweet text never raises: it appends, for
    each element in order, the element's [alt] if it has one and then the
    element's text. *)
Theorem tweet_text_of_total (elements : list bs4.Node) (tweet_text : pystr) :
  tweet_text_of elements tweet_text
  = OK (tweet_text ++ concat (piece_text <$> elements)).
Proof. apply tweet_text_of_value. Qed.

Lemma parse_steps (html url : pystr) (soup e tm : bs4.Node)
    (user stamp : pystr) (parsed : dt.datetime) :
  BeautifulSoup env html = OK soup ->
  get_user_from_twitter_url env url = OK (Some user) ->
  bs4.find soup is_tweet_text = Some e ->
  bs4.find soup (bs4.name_is (str "time")) = Some tm ->
  bs4.get tm (str "datetime") = Some stamp ->
  strptime env stamp (str "%Y-%m-%dT%H:%M:%S.%fZ") = OK parsed ->
  _best_effort_parse_tweet_from_html env html url
  = OK (Some (tweet_of soup e user url parsed)).
Proof.
  intros Hsoup Huser He Htm Hstamp Hparsed.
  unfold _best_effort_parse_tweet_from_html.
  rewrite Hsoup. simpl. rewrite Huser. simpl.
  change (bs4.find soup _) with (bs4.find soup is_tweet_text) at 1.
  rewrite He. simpl. rewrite tweet_text_of_value. simpl.
  rewrite Htm. simpl. unfold bs4.getitem. rewrite Hstamp. simpl.
  rewrite Hparsed. reflexivity.
Qed.

Lemma parse_found_steps (html url : pystr) (tweet : XContent) :
  _best_effort_parse_tweet_from_html env html url = OK (Some tweet) ->
  exists soup e tm user stamp parsed,
    BeautifulSoup env html = OK soup /\
    get_user_from_twitter_url env url = OK (Some user) /\
    bs4.find soup is_tweet_text = Some e /\
    bs4.find soup (bs4.name_is (str "time")) = Some tm /\
    bs4.get tm (str "datetime") = Some stamp /\
    strptime env stamp (str "%Y-%m-%dT%H:%M:%S.%fZ") = OK parsed /\
    tweet = tweet_of soup e user url parsed.
Proof.
  unfold _best_effort_parse_tweet_from_html.
  destruct (BeautifulSoup env html) as [soup|] eqn:Hsoup; simpl;
    [|discriminate].
  destruct (get_user_from_twitter_url env url) as [[user|]|] eqn:Huser;
    simpl; [|discriminate..].
  change (bs4.find soup (fun tag => bs4.name_is (str "div") tag && _))
    with (bs4.find soup is_tweet_text).
  destruct (bs4.find soup is_tweet_text) as [e|] eqn:He; simpl;
    [|discriminate].
  rewrite tweet_text_of_value. simpl.
  destruct (bs4.find soup (bs4.name_is _)) as [tm|] eqn:Htm; simpl;
    [|discriminate].
  unfold bs4.getitem.
  destruct (bs4.get tm _) as [stamp|] eqn:Hstamp; simpl; [|discriminate].
  destruct (strptime env stamp _) as [parsed|] eqn:Hparsed; simpl;
    [|discriminate].
  intros [= <-]. by exists soup, e, tm, user, stamp, parsed.
Qed.

(** X12. The parser returns a tweet exactly when every step succeeds: the
    markup parses, the URL names a user, the document has a text container
    and a [time] element with a [datetime] attribute, and that attribute
    parses as a date; the tweet is then built from these parts. In every
    other case it returns [None]. *)
Theorem parse_found_iff (html url : pystr) (tweet : XContent) :
  _best_effort_parse_tweet_from_html env html url = OK (Some tweet)
  <-> exists soup e tm user stamp parsed,
        BeautifulSoup env html = OK soup /\
        get_user_from_twitter_url env url = OK (Some user) /\
        bs4.find soup is_tweet_text = Some e /\
        bs4.find soup (bs4.name_is (str "time")) = Some tm /\
        bs4.get tm (str "datetime") = Some stamp /\
        strptime env stamp (str "%Y-%m-%dT%H:%M:%S.%fZ") = OK parsed /\
        tweet = tweet_of soup e user url parsed.
Proof.
  split; [apply parse_found_steps|].
  intros (soup & e & tm & user & stamp & parsed
          & Hsoup & Huser & He & Htm & Hstamp & Hparsed & ->).
  by eapply parse_steps.
Qed.

(** X13. Every tag of a parsed tweet starts with ['#'], also a tag that
    came from an anchor without text. *)
Theorem parse_hashtags_start_with_hash (html url : pystr) (tweet : XContent) :
  _best_effort_parse_tweet_from_html env html url = OK (Some tweet) ->
  Forall (fun tag => exists rest, tag = hash :: rest) (tweet_hashtags tweet).
Proof.
  intros Hparse.
  apply parse_found_steps in Hparse
    as (soup & e & tm & user & stamp & parsed & _ & _ & _ & _ & _ & _ & ->).
  simpl. unfold corrected_hashtags.
  apply Forall_fmap, Forall_forall. intros t _. simpl. by eexists.
Qed.

End ParserExtras.

(** C7. The parser never raises: for every markup and URI it returns
    either no tweet or a tweet. A returned tweet is fully populated, each
    field from a step that succeeded: the user that the URI names, the text
    of the span and image pieces of the text container, the URI itself,
    the [datetime] attribute of the [time] element as [strptime] parsed it,
    cut to the minute in UTC, and the corrected tags of all tag anchors of
    the document, in document order. *)
Theorem parse_never_raises
    {World : Type} (env : Twitter.Env World) (html url : pystr) :
  exists outcome,
    Twitter._best_effort_parse_tweet_from_html env html url = OK outcome /\
    match outcome with
    | None => True
    | Some tweet =>
        exists soup e tm user stamp parsed,
          Twitter.BeautifulSoup env html = OK soup /\
          Twitter.get_user_from_twitter_url env url = OK (Some user) /\
          bs4.find soup Notion.is_tweet_text = Some e /\
          bs4.find soup (bs4.name_is (str "time")) = Some tm /\
          bs4.get tm (str "datetime") = Some stamp /\
          Twitter.strptime env stamp (str "%Y-%m-%dT%H:%M:%S.%fZ")
          = OK parsed /\
          tweet
          = {| Twitter.username := user;
               Twitter.text :=
                 concat (Notion.piece_text
                         <$> bs4.find_all e Notion.is_text_piece);
               Twitter.url := url;
               Twitter.timestamp :=
                 dt.replace_tzinfo
                   (dt.replace_microsecond (dt.replace_second parsed 0) 0)
                   (Some dt.utc);
               Twitter.tweet_hashtags :=
                 Twitter.corrected_hashtags
                   (bs4.text <$> bs4.find_all soup Notion.is_tag_anchor) |}
    end.
Proof.
  destruct (parse_total env html url) as [outcome Hparse].
  exists outcome. split; [done|].
  destruct outcome as [tweet|]; [|done].
  by apply parse_found_steps.
Qed.

(** X14. Correcting tags that are already corrected changes nothing. *)
Theorem corrected_hashtags_idempotent (hashtags : list pystr) :
  Twitter.corrected_hashtags (Twitter.corrected_hashtags hashtags)
  = Twitter.corrected_hashtags hashtags.
Proof.
  unfold Twitter.corrected_hashtags. rewrite <- list_fmap_compose.
  apply list_fmap_ext. intros _ t _. simpl. by rewrite !slice_tail.
Qed.

Lemma parse_found_iff_witness :
  Twitter._best_effort_parse_tweet_from_html Sample.env
    (str "<div></div>") Sample.tweet_uri
  = OK (Some Sample.stored_tweet).
Proof.
  apply (parse_found_iff Sample.env (str "<div></div>") Sample.tweet_uri
           Sample.stored_tweet).
  eexists Sample.page, _, _, (str "@nirmaljajra2"), _, _.
  repeat split; vm_compute; reflexivity.
Defined.

Lemma parse_hashtags_start_with_hash_witness :
  Forall (fun tag => exists rest, tag = Twitter.hash :: rest)
         (Twitter.tweet_hashtags Sample.stored_tweet).
Proof.
  apply (parse_hashtags_start_with_hash Sample.env
           (str "<div></div>") Sample.tweet_uri Sample.stored_tweet).
  vm_compute. reflexivity.
Defined.

(** ** More on the validator *)

Section ValidatorExtras.

Import Twitter Notion.

Context {World : Type} (env : Env World).

Lemma datetime_eqb_refl (d : dt.datetime) : dt.datetime_eqb d d = true.
Proof.
  unfold dt.datetime_eqb, dt.same_fields.
  destruct (dt.tzinfo d) as [z|].
  - by rewrite Z.eqb_refl, bool_decide_eq_true_2.
  - by rewrite bool_decide_eq_true_2.
Qed.

Lemma XContent_eqb_refl (a : XContent) : XContent_eqb a a = true.
Proof.
  unfold XContent_eqb.
  by rewrite !bool_decide_eq_true_2, datetime_eqb_refl.
Qed.

Lemma XContent_eqb_true (a b : XContent) :
  XContent_eqb a b = true <->
  username a = username b /\ text a = text b /\ url a = url b /\
  dt.datetime_eqb (timestamp a) (timestamp b) = true /\
  tweet_hashtags a = tweet_hashtags b.
Proof.
  unfold XContent_eqb.
  rewrite !andb_true_iff, !bool_decide_eq_true. tauto.
Qed.

Lemma validate_tweet_decoded (tweet tweet_to_verify : XContent)
    (entity : DataEntity) :
  from_data_entity env entity = OK tweet_to_verify ->
  _validate_tweet env tweet entity
  = if negb (XContent_eqb tweet_to_verify (adopt tweet tweet_to_verify))
    then OK (mismatch entity)
    else
      match to_data_entity env (adopt tweet tweet_to_verify) with
      | Raise _ =>
          OK {| is_valid := false;
                reason := str "Failed to convert XContent to DataEntity.";
                content_size_bytes_validated := content_size_bytes entity |}
      | OK tweet_entity =>
          match are_non_content_fields_equal env tweet_entity entity with
          | Raise _ =>
              OK {| is_valid := false;
                    reason := str "Failed to convert XContent to DataEntity.";
                    content_size_bytes_validated :=
                      content_size_bytes entity |}
          | OK false =>
              OK {| is_valid := false;
                    reason :=
                      str "The DataEntity fields are incorrect based on the tweet.";
                    content_size_bytes_validated :=
                      content_size_bytes entity |}
          | OK true => OK (confirmed entity)
          end
      end.
Proof.
  intros Hdec. unfold _validate_tweet. rewrite Hdec.
  change (if elided (text tweet) (text tweet_to_verify)
          then set_text tweet (text tweet_to_verify) else tweet)
    with (adopt tweet tweet_to_verify).
  destruct (negb _); [reflexivity|].
  destruct (to_data_entity env _) as [tweet_entity|]; simpl; [|reflexivity].
  destruct (are_non_content_fields_equal env _ _) as [[|]|]; reflexivity.
Qed.

(** Adoption changes the text only. *)
Lemma adopt_fields (tweet tweet_to_verify : XContent) :
  username (adopt tweet tweet_to_verify) = username tweet /\
  url (adopt tweet tweet_to_verify) = url tweet /\
  timestamp (adopt tweet tweet_to_verify) = timestamp tweet /\
  tweet_hashtags (adopt tweet tweet_to_verify) = tweet_hashtags tweet.
Proof. unfold adopt. by destruct (elided _ _). Qed.

(** A claim text that is a run of the fresh text closed by the ellipsis is
    adopted, wherever in the fresh text the run stands. *)
Lemma adopt_inner_run (tweet tweet_to_verify : XContent)
    (body pre post : pystr) :
  text tweet_to_verify = body ++ [ellipsis] ->
  text tweet = pre ++ body ++ post ->
  username tweet = username tweet_to_verify ->
  url tweet = url tweet_to_verify ->
  timestamp tweet = timestamp tweet_to_verify ->
  tweet_hashtags tweet = tweet_hashtags tweet_to_verify ->
  adopt tweet tweet_to_verify = tweet_to_verify.
Proof.
  intros Htext Hrun Hu Hl Ht Hh. unfold adopt. rewrite Htext.
  destruct (decide (text tweet = body ++ [ellipsis])) as [Heq|Hne].
  - destruct (elided _ _); destruct tweet, tweet_to_verify;
      simpl in *; unfold set_text; simpl; f_equal; congruence.
  - rewrite (elided_intro (text tweet) body pre post Hne Hrun).
    destruct tweet, tweet_to_verify; simpl in *;
      unfold set_text; simpl; f_equal; congruence.
Qed.

(** When the adjusted fresh tweet is the decoded claim and the metadata
    agree, the verdict is valid. *)
Lemma validate_tweet_adopted
    (tweet tweet_to_verify : XContent) (entity tweet_entity : DataEntity) :
  from_data_entity env entity = OK tweet_to_verify ->
  adopt tweet tweet_to_verify = tweet_to_verify ->
  to_data_entity env tweet_to_verify = OK tweet_entity ->
  are_non_content_fields_equal env tweet_entity entity = OK true ->
  _validate_tweet env tweet entity = OK (confirmed entity).
Proof.
  intros Hdec Hadopt Hte Hsame.
  rewrite (validate_tweet_decoded tweet tweet_to_verify entity Hdec).
  rewrite Hadopt, XContent_eqb_refl. simpl. by rewrite Hte, Hsame.
Qed.

(** C3 (the code departs from the claim). [_validate_tweet] adopts the
    claim's text, and goes on to the valid verdict when the other fields
    and the metadata agree, whenever the claim's text without its closing
    ellipsis character occurs anywhere in the fresh text: after any text
    [pre], not only at the start. *)
Theorem validate_tweet_accepts_inner_run
    (tweet tweet_to_verify : XContent) (entity tweet_entity : DataEntity)
    (body pre post : pystr) :
  from_data_entity env entity = OK tweet_to_verify ->
  text tweet_to_verify = body ++ [ellipsis] ->
  text tweet = pre ++ body ++ post ->
  username tweet = username tweet_to_verify ->
  url tweet = url tweet_to_verify ->
  timestamp tweet = timestamp tweet_to_verify ->
  tweet_hashtags tweet = tweet_hashtags tweet_to_verify ->
  to_data_entity env tweet_to_verify = OK tweet_entity ->
  are_non_content_fields_equal env tweet_entity entity = OK true ->
  adopt tweet tweet_to_verify = set_text tweet (body ++ [ellipsis]) /\
  _validate_tweet env tweet entity = OK (confirmed entity).
Proof.
  intros Hdec Htext Hrun Hu Hl Ht Hh Hte Hsame.
  pose proof (adopt_inner_run tweet tweet_to_verify body pre post
                Htext Hrun Hu Hl Ht Hh) as Hadopt.
  split.
  - rewrite Hadopt. destruct tweet, tweet_to_verify; simpl in *;
      unfold set_text; simpl; f_equal; congruence.
  - by eapply validate_tweet_adopted.
Qed.

(** X15. [_validate_tweet] returns the valid verdict exactly when the
    claim's bytes decode, the decoded tweet compares equal, field by field
    with [==], to the fresh tweet after the elision adjustment, the
    adjusted fresh tweet re-encodes to an entity, and that entity agrees
    with the claim on the non-content fields; no other result of
    [_validate_tweet] is valid. *)
Theorem validate_tweet_confirmed_iff (tweet : XContent) (entity : DataEntity) :
  (_validate_tweet env tweet entity = OK (confirmed entity)
   <-> exists tweet_to_verify tweet_entity,
         from_data_entity env entity = OK tweet_to_verify /\
         XContent_eqb tweet_to_verify (adopt tweet tweet_to_verify) = true /\
         to_data_entity env (adopt tweet tweet_to_verify) = OK tweet_entity /\
         are_non_content_fields_equal env tweet_entity entity = OK true) /\
  (forall r,
     _validate_tweet env tweet entity = OK r ->
     is_valid r = true -> r = confirmed entity).
Proof.
  destruct (from_data_entity env entity) as [tv|err] eqn:Hdec.
  2: { unfold _validate_tweet. rewrite Hdec. simpl. split.
       - split; [discriminate|]. intros (? & ? & ? & _). discriminate.
       - intros r [= <-]; simpl; intros [=]. }
  rewrite (validate_tweet_decoded tweet tv entity Hdec).
  destruct (XContent_eqb tv (adopt tweet tv)) eqn:Heq; simpl.
  - destruct (to_data_entity env (adopt tweet tv)) as [te|] eqn:Hte.
    2: { split.
         - split; [discriminate|].
           intros (tv' & te' & Hdec' & _ & Hte' & _).
           injection Hdec' as <-. congruence.
         - intros r [= <-]; simpl; intros [=]. }
    destruct (are_non_content_fields_equal env te entity) as [[|]|] eqn:Hsame.
    + split; [|by intros r [= <-]].
      split; [|done]. intros _. by exists tv, te.
    + split; [|intros r [= <-]; simpl; intros [=]].
      split; [discriminate|].
      intros (tv' & te' & Hdec' & _ & Hte' & Htrue).
      injection Hdec' as <-. congruence.
    + split; [|intros r [= <-]; simpl; intros [=]].
      split; [discriminate|].
      intros (tv' & te' & Hdec' & _ & Hte' & Htrue).
      injection Hdec' as <-. congruence.
  - split.
    + split; [discriminate|].
      intros (tv' & te' & Hdec' & Hsame & _).
      injection Hdec' as <-. congruence.
    + intros r [= <-]; simpl; intros [=].
Qed.

(** X16. If the decoded claim differs from the fresh tweet in the user,
    the URL or the tag sequence, or if their timestamps do not compare
    equal with [==] (two aware timestamps compare by instant), the verdict
    is "Tweet does not match"; the elision adjustment cannot hide it. *)
Theorem validate_tweet_field_mismatch
    (tweet tweet_to_verify : XContent) (entity : DataEntity) :
  from_data_entity env entity = OK tweet_to_verify ->
  username tweet <> username tweet_to_verify
  \/ url tweet <> url tweet_to_verify
  \/ dt.datetime_eqb (timestamp tweet_to_verify) (timestamp tweet) = false
  \/ tweet_hashtags tweet <> tweet_hashtags tweet_to_verify ->
  _validate_tweet env tweet entity = OK (mismatch entity).
Proof.
  intros Hdec Hdiff.
  rewrite (validate_tweet_decoded tweet tweet_to_verify entity Hdec).
  destruct (XContent_eqb tweet_to_verify (adopt tweet tweet_to_verify))
    eqn:Heq; [|done].
  apply XContent_eqb_true in Heq as (Hu & _ & Hl & Ht & Hh).
  destruct (adopt_fields tweet tweet_to_verify) as (Hu' & Hl' & Ht' & Hh').
  rewrite Hu' in Hu. rewrite Hl' in Hl. rewrite Ht' in Ht. rewrite Hh' in Hh.
  destruct Hdiff as [?|[?|[?|?]]]; congruence.
Qed.

(** X17. A difference in the text gives "Tweet does not match" whenever the
    claim's text does not end with the ellipsis character. *)
Theorem validate_tweet_text_mismatch
    (tweet tweet_to_verify : XContent) (entity : DataEntity) :
  from_data_entity env entity = OK tweet_to_verify ->
  text tweet <> text tweet_to_verify ->
  endswith (text tweet_to_verify) [ellipsis] = false ->
  _validate_tweet env tweet entity = OK (mismatch entity).
Proof.
  intros Hdec Htext Hend.
  rewrite (validate_tweet_decoded tweet tweet_to_verify entity Hdec).
  destruct (XContent_eqb tweet_to_verify (adopt tweet tweet_to_verify))
    eqn:Heq; [|done].
  apply XContent_eqb_true in Heq as (_ & Ht & _).
  unfold adopt, elided in Ht. rewrite Hend, andb_false_r in Ht.
  simpl in Ht. congruence.
Qed.

(** X18. A claim whose text is the ellipsis character alone passes the
    content comparison against every fresh text: if the other fields and
    the metadata agree, the verdict is valid. *)
Theorem validate_tweet_bare_ellipsis
    (tweet tweet_to_verify : XContent) (entity tweet_entity : DataEntity) :
  from_data_entity env entity = OK tweet_to_verify ->
  text tweet_to_verify = [ellipsis] ->
  username tweet = username tweet_to_verify ->
  url tweet = url tweet_to_verify ->
  timestamp tweet = timestamp tweet_to_verify ->
  tweet_hashtags tweet = tweet_hashtags tweet_to_verify ->
  to_data_entity env tweet_to_verify = OK tweet_entity ->
  are_non_content_fields_equal env tweet_entity entity = OK true ->
  _validate_tweet env tweet entity = OK (confirmed entity).
Proof.
  intros Hdec Htext Hu Hl Ht Hh Hte Hsame.
  eapply validate_tweet_adopted; [done| |done..].
  by apply (adopt_inner_run tweet tweet_to_verify [] [] (text tweet)).
Qed.

End ValidatorExtras.

Lemma validate_tweet_confirmed_iff_witness :
  Twitter._validate_tweet Sample.env Sample.stored_tweet Sample.good_entity
  = OK (Notion.confirmed Sample.good_entity).
Proof.
  destruct (validate_tweet_confirmed_iff Sample.env
              Sample.stored_tweet Sample.good_entity) as [[_ Hconfirmed] _].
  apply Hconfirmed.
  exists Sample.stored_tweet,
    (Twitter.mkDataEntity Sample.tweet_uri Sample.posted Twitter.X
       (Some (Twitter.mkDataLabel (str "#bittensor"))) [] 0).
  repeat split; vm_compute; reflexivity.
Defined.

Lemma validate_tweet_field_mismatch_witness :
  Twitter._validate_tweet Sample.env
    {| Twitter.username := str "@someone";
       Twitter.text := Twitter.text Sample.stored_tweet;
       Twitter.url := Sample.tweet_uri;
       Twitter.timestamp := Sample.posted;
       Twitter.tweet_hashtags := [str "#Bittensor"; str "#PAAl"] |}
    Sample.good_entity
  = OK (Notion.mismatch Sample.good_entity).
Proof.
  apply (validate_tweet_field_mismatch Sample.env _ Sample.stored_tweet).
  - reflexivity.
  - left. intros Heq. vm_compute in Heq. discriminate.
Defined.

Lemma validate_tweet_text_mismatch_witness :
  Twitter._validate_tweet Sample.env
    (Twitter.set_text Sample.stored_tweet (str "Random-text-insertion"))
    Sample.good_entity
  = OK (Notion.mismatch Sample.good_entity).
Proof.
  apply (validate_tweet_text_mismatch Sample.env _ Sample.stored_tweet).
  - reflexivity.
  - intros Heq. vm_compute in Heq. discriminate.
  - vm_compute. reflexivity.
Defined.

Lemma validate_tweet_bare_ellipsis_witness :
  Twitter._validate_tweet
    (Sample.env_claiming (Twitter.set_text Sample.stored_tweet [ellipsis]))
    Sample.stored_tweet Sample.good_entity
  = OK (Notion.confirmed Sample.good_entity).
Proof.
  apply (validate_tweet_bare_ellipsis
           (Sample.env_claiming
              (Twitter.set_text Sample.stored_tweet [ellipsis]))
           Sample.stored_tweet
           (Twitter.set_text Sample.stored_tweet [ellipsis])
           Sample.good_entity
           (Twitter.mkDataEntity Sample.tweet_uri Sample.posted Twitter.X
              (Some (Twitter.mkDataLabel (str "#bittensor"))) [] 0));
    vm_compute; reflexivity.
Defined.

Lemma validate_tweet_accepts_inner_run_witness :
  Twitter._validate_tweet
    (Sample.env_claiming
       (Twitter.set_text Sample.stored_tweet (str "advantage" ++ [ellipsis])))
    Sample.stored_tweet Sample.good_entity
  = OK (Notion.confirmed Sample.good_entity)
  /\ startswith (Twitter.text Sample.stored_tweet) (str "advantage") = false.
Proof.
  split; [|vm_compute; reflexivity].
  apply (validate_tweet_accepts_inner_run
           (Sample.env_claiming
              (Twitter.set_text Sample.stored_tweet
                 (str "advantage" ++ [ellipsis])))
           Sample.stored_tweet
           (Twitter.set_text Sample.stored_tweet
              (str "advantage" ++ [ellipsis]))
           Sample.good_entity
           (Twitter.mkDataEntity Sample.tweet_uri Sample.posted Twitter.X
              (Some (Twitter.mkDataLabel (str "#bittensor"))) [] 0)
           (str "advantage")
           (str "DMind has the biggest ")
           (str " of using  APIs."));
    vm_compute; reflexivity.
Defined.

(** ** More on [validate] *)

Section ValidateExtras.

Import Twitter Notion.

Context {World : Type} (env : Env World).

Lemma validate_loop_prefix (pre rest : list DataEntity)
    (results : list ValidationResult) (w : World) :
  Forall (valid_uri env) pre ->
  exists rs,
    validate_loop env (pre ++ rest) results w
    = validate_loop env rest (results ++ rs) (foldl (loaded env) w pre) /\
    length rs = length pre.
Proof.
  intros Hpre. revert results w.
  induction Hpre as [|e pre He _ IH]; intros results w; simpl.
  - exists []. by rewrite app_nil_r.
  - destruct (validate_entity_valid_uri env e results w He) as (r & Hstep & _).
    unfold bindM at 1. rewrite Hstep.
    destruct (IH (results ++ [r]) (loaded env w e)) as (rs & -> & Hlen).
    exists (r :: rs). rewrite <- app_assoc. split; [done|]. simpl. lia.
Qed.

(** X19. When every URI is a valid Twitter URL, [validate] returns one
    result per entity, in the entities' order, each with the entity's
    declared size, and it loads each entity's page exactly once, in the
    entities' order. *)
Theorem validate_answers_each_entity (entities : list DataEntity) (w : World) :
  Forall (valid_uri env) entities ->
  exists results,
    validate env entities w
    = (OK results, foldl (loaded env) w entities) /\
    length results = length entities /\
    Forall2 (fun e r => content_size_bytes_validated r = content_size_bytes e)
            entities results.
Proof. apply validate_valid_uris. Qed.

(** X20. [validate] works through the entities up to the first one whose
    URI is not a valid Twitter URL and raises there: the pages of the
    entities before it have been loaded, no later page is loaded, and the
    results gathered so far are lost. *)
Theorem validate_stops_at_invalid_uri
    (before after : list DataEntity) (e : DataEntity) (w : World) :
  Forall (valid_uri env) before ->
  invalid_uri env e ->
  validate env (before ++ e :: after) w
  = (Raise (invalid_uri_error env), foldl (loaded env) w before).
Proof.
  intros Hbefore He. rewrite validate_unfold.
  destruct (validate_loop_prefix before (e :: after) [] w Hbefore)
    as (rs & -> & _).
  simpl. unfold bindM.
  by rewrite (validate_entity_invalid_uri env e _ _ He).
Qed.

(** X21. When the page of an entity loads but the parser finds no tweet in
    it, the entity's result is invalid with the reason "Tweet not found or
    is invalid." and the entity's declared size. *)
Theorem validate_tweet_not_found
    (e : DataEntity) (html : pystr) (w w' : World) :
  valid_uri env e ->
  tweet_inner_html env (uri e) w = (OK html, w') ->
  _best_effort_parse_tweet_from_html env html (uri e) = OK None ->
  validate env [e] w = (OK [not_found e], w').
Proof.
  unfold valid_uri. intros He Hload Hparse.
  simpl. unfold bindM, validate_entity. rewrite He. simpl.
  rewrite Hload. unfold liftM. rewrite Hparse. reflexivity.
Qed.

End ValidateExtras.

Lemma validate_answers_each_entity_witness :
  exists results,
    Twitter.validate Sample.env
      [Sample.good_entity; Sample.unreachable_entity] []
    = (OK results,
       foldl (loaded Sample.env) []
             [Sample.good_entity; Sample.unreachable_entity]) /\
    length results = 2%nat /\
    Forall2 (fun e r => Twitter.content_size_bytes_validated r
                        = Twitter.content_size_bytes e)
            [Sample.good_entity; Sample.unreachable_entity] results.
Proof.
  apply (validate_answers_each_entity Sample.env
           [Sample.good_entity; Sample.unreachable_entity] []).
  repeat constructor.
Defined.

Lemma validate_stops_at_invalid_uri_witness :
  Twitter.validate Sample.env
    [Sample.good_entity; Sample.bad_uri_entity; Sample.unreachable_entity] []
  = (Raise ValidationError, [Sample.tweet_uri]).
Proof.
  apply (validate_stops_at_invalid_uri Sample.env
           [Sample.good_entity] [Sample.unreachable_entity]
           Sample.bad_uri_entity []).
  - repeat constructor.
  - reflexivity.
Defined.

Lemma validate_tweet_not_found_witness :
  Twitter.validate Sample.empty_page_env [Sample.good_entity] []
  = (OK [Notion.not_found Sample.good_entity], [Sample.tweet_uri]).
Proof.
  apply (validate_tweet_not_found Sample.empty_page_env Sample.good_entity
           (str "<div></div>") [] [Sample.tweet_uri]).
  - reflexivity.
  - reflexivity.
  - vm_compute. reflexivity.
Defined.

(** ** The script body of custom_crawler.py *)

Section ScriptExtras.

Import Twitter Script.

Context {ScraperId : Type} `{Countable ScraperId} {Scraper : Type}.
Variables REDDIT_LITE X_FLASH REDDIT_CUSTOM X_MICROWORLDS : ScraperId.
Variables RedditLiteScraper MicroworldsTwitterScraper RedditCustomScraper
  : Provider.Factory Scraper.

Abbreviation script_main :=
  (main REDDIT_LITE X_FLASH REDDIT_CUSTOM X_MICROWORLDS
     RedditLiteScraper MicroworldsTwitterScraper RedditCustomScraper).
Abbreviation script_provider_for :=
  (provider_for REDDIT_LITE X_FLASH REDDIT_CUSTOM X_MICROWORLDS
     RedditLiteScraper MicroworldsTwitterScraper RedditCustomScraper).
Abbreviation script_key_iteration :=
  (key_iteration REDDIT_LITE X_FLASH REDDIT_CUSTOM X_MICROWORLDS
     RedditLiteScraper MicroworldsTwitterScraper RedditCustomScraper).

Section AnyEnv.

Context {World CoordinatorConfig : Type}.
Variable env : @Env ScraperId _ _ Scraper World CoordinatorConfig.

(** With an empty list of keys the script stops with [ZeroDivisionError]
    before it draws a random number or starts a coordinator. *)
Lemma main_no_keys (SUB_REDDITS : list pystr) (w : World) :
  script_main env [] SUB_REDDITS w = (Raise ZeroDivisionError, w).
Proof. reflexivity. Qed.

(** X22. With at least one key and fewer sub-reddits than keys the script
    never reaches its final loop: whatever the external steps do, it ends
    with an exception. *)
Theorem main_few_sub_reddits_raises
    (KEYS : list (gmap pystr pystr)) (SUB_REDDITS : list pystr) (w : World) :
  KEYS <> [] ->
  (length SUB_REDDITS < length KEYS)%nat ->
  raises
    (fst (main REDDIT_LITE X_FLASH REDDIT_CUSTOM X_MICROWORLDS
      RedditLiteScraper MicroworldsTwitterScraper RedditCustomScraper
      env KEYS SUB_REDDITS w)).
Proof.
  intros Hkeys Hfew. unfold main, bindM, liftM, floordiv.
  destruct (Z.eqb_spec (Z.of_nat (length KEYS)) 0) as [Hz|_].
  { destruct KEYS; [done|simpl in Hz; lia]. }
  rewrite Z.div_small by lia. simpl.
  unfold randintM.
  destruct (randint env 30 120 w) as [cascade w1].
  destruct (randint env 100 1000 w1) as [max_e w2].
  destruct (randint env 5 15 w2) as [steps w3].
  destruct (Crawler.generate_scraping_config _ _ _ _) as [cfg|];
    [|by eexists].
  destruct (to_coordinator_config env cfg) as [cc|]; [|by eexists].
  destruct (list_getitem KEYS 0) as [key|]; [|by eexists].
  destruct (run_coordinator env _ cc w3) as [[[]|] w4]; by eexists.
Qed.

End AnyEnv.

Section LoggedEnv.

Abbreviation logged :=
  (@logged_env ScraperId _ _ Scraper).

Lemma tail3 (zs : list Z) : tail (tail (tail zs)) = drop 3 zs.
Proof. by destruct zs as [|? [|? [|? ?]]]. Qed.

Lemma randint_nonzero_steps (z : Z) : 5 + z mod (15 - 5 + 1) <> 0.
Proof.
  change (15 - 5 + 1) with 11.
  pose proof (Z.mod_pos_bound z 11 eq_refl). lia.
Qed.

Lemma generate_scraping_config_returns
    (sub_reddits : list pystr) (cascade_seconds max_entities num_steps : Z) :
  num_steps <> 0 ->
  exists c,
    Crawler.generate_scraping_config
      sub_reddits cascade_seconds max_entities num_steps = OK c.
Proof.
  intros Hn. unfold Crawler.generate_scraping_config, floordiv.
  destruct (Z.eqb_spec num_steps 0); [done|]. simpl. by eexists.
Qed.

Lemma list_getitem_lookup {A} (l : list A) (i : nat) (x : A) :
  l !! i = Some x -> list_getitem l (Z.of_nat i) = OK x.
Proof.
  intros Hi. unfold list_getitem. cbv zeta.
  assert ((Z.of_nat i <? 0) = false) as Hneg by (apply Z.ltb_ge; lia).
  rewrite Hneg. cbv iota. rewrite Hneg.
  by rewrite Nat2Z.id, Hi.
Qed.

(** With every external step succeeding, the turn for key [i] draws three
    numbers and starts one coordinator, bound to that key. *)
Lemma key_iteration_logged (KEYS : list (gmap pystr pystr))
    (SUB_REDDITS : list pystr) (R : Z) (i : nat) (key : gmap pystr pystr)
    (zs : list Z) log :
  KEYS !! i = Some key ->
  exists c,
    script_key_iteration logged KEYS SUB_REDDITS R (Z.of_nat i) (zs, log)
    = (OK tt, (drop 3 zs, log ++ [(script_provider_for key, c)])).
Proof.
  intros Hkey. unfold key_iteration, bindM, liftM, randintM. simpl.
  destruct (generate_scraping_config_returns
              (key_sub_reddits SUB_REDDITS R (Z.of_nat i))
              (30 + hd 0 (tail zs) mod (120 - 30 + 1))
              (100 + hd 0 (tail (tail zs)) mod (1000 - 100 + 1))
              (5 + hd 0 zs mod (15 - 5 + 1))
              (randint_nonzero_steps _)) as [c Hc].
  exists c. rewrite Hc. rewrite (list_getitem_lookup KEYS i key Hkey).
  by rewrite tail3.
Qed.

Lemma for_each_cons {World} (i : Z) (rest : list Z)
    (body : Z -> M World unit) (w : World) :
  for_each (i :: rest) body w
  = match body i w with
    | (OK _, w') => for_each rest body w'
    | (Raise e, w') => (Raise e, w')
    end.
Proof. reflexivity. Qed.

Lemma for_each_logged (KEYS : list (gmap pystr pystr))
    (SUB_REDDITS : list pystr) (R : Z) (k s : nat) (zs : list Z) log :
  (s + k <= length KEYS)%nat ->
  exists started,
    for_each (Z.of_nat <$> seq s k)
      (script_key_iteration logged KEYS SUB_REDDITS R) (zs, log)
    = (OK tt, (drop (3 * k) zs, log ++ started)) /\
    fst <$> started = script_provider_for <$> take k (drop s KEYS).
Proof.
  revert s zs log. induction k as [|k IH]; intros s zs log Hle.
  - exists []. simpl. by rewrite app_nil_r, drop_0.
  - destruct (lookup_lt_is_Some_2 KEYS s) as [key Hkey]; [lia|].
    destruct (key_iteration_logged KEYS SUB_REDDITS R s key zs log Hkey)
      as [c Hstep].
    change (Z.of_nat <$> seq s (S k))
      with (Z.of_nat s :: (Z.of_nat <$> seq (S s) k)).
    rewrite for_each_cons, Hstep.
    destruct (IH (S s) (drop 3 zs) (log ++ [(script_provider_for key, c)]))
      as (started & -> & Hstarted); [lia|].
    exists ((script_provider_for key, c) :: started).
    rewrite <- app_assoc, drop_drop. split.
    + do 3 f_equal. lia.
    + by rewrite (drop_S _ _ _ Hkey), firstn_cons, !fmap_cons, Hstarted.
Qed.

(** X23. With at least as many sub-reddits as keys, and every external step
    succeeding, the script starts exactly one coordinator per key, in the
    keys' order, each with a provider bound to its key, and then reaches
    its final loop. *)
Theorem main_starts_one_coordinator_per_key
    (KEYS : list (gmap pystr pystr)) (SUB_REDDITS : list pystr)
    (zs : list Z) :
  KEYS <> [] ->
  (length KEYS <= length SUB_REDDITS)%nat ->
  exists started,
    main REDDIT_LITE X_FLASH REDDIT_CUSTOM X_MICROWORLDS
      RedditLiteScraper MicroworldsTwitterScraper RedditCustomScraper
      logged_env KEYS SUB_REDDITS (zs, [])
    = (OK tt, (drop (3 * length KEYS) zs, started)) /\
    fst <$> started
    = provider_for REDDIT_LITE X_FLASH REDDIT_CUSTOM X_MICROWORLDS
      RedditLiteScraper MicroworldsTwitterScraper RedditCustomScraper
      <$> KEYS.
Proof.
  intros Hkeys Hmany. unfold main, liftM, floordiv.
  unfold bindM at 1.
  destruct (Z.eqb_spec (Z.of_nat (length KEYS)) 0) as [Hz|_].
  { destruct KEYS; [done|simpl in Hz; lia]. }
  assert (0 < Z.of_nat (length SUB_REDDITS) / Z.of_nat (length KEYS)) as HR.
  { apply Z.div_str_pos. destruct KEYS; [done|simpl in *; lia]. }
  destruct (Z.ltb_spec 0 (Z.of_nat (length SUB_REDDITS)
                          / Z.of_nat (length KEYS))); [|lia].
  rewrite range_seq, Nat2Z.id.
  destruct (for_each_logged KEYS SUB_REDDITS
              (Z.of_nat (length SUB_REDDITS) / Z.of_nat (length KEYS))
              (length KEYS) 0 zs [])
    as (started & -> & Hstarted); [lia|].
  exists started. split; [done|].
  by rewrite Hstarted, drop_0, firstn_all.
Qed.

(** X24. With at least one key, fewer sub-reddits than keys, and every
    external step succeeding, the script starts a single coordinator, bound
    to the first key, and then stops with [NameError]. *)
Theorem main_few_sub_reddits_name_error
    (key : gmap pystr pystr) (KEYS : list (gmap pystr pystr))
    (SUB_REDDITS : list pystr) (zs : list Z) :
  (length SUB_REDDITS < length (key :: KEYS))%nat ->
  exists c,
    main REDDIT_LITE X_FLASH REDDIT_CUSTOM X_MICROWORLDS
      RedditLiteScraper MicroworldsTwitterScraper RedditCustomScraper
      logged_env (key :: KEYS) SUB_REDDITS (zs, [])
    = (Raise NameError,
       (drop 3 zs,
        [(provider_for REDDIT_LITE X_FLASH REDDIT_CUSTOM X_MICROWORLDS
      RedditLiteScraper MicroworldsTwitterScraper RedditCustomScraper
      key, c)])).
Proof.
  intros Hfew. unfold main, bindM, liftM, floordiv, randintM.
  destruct (Z.eqb_spec (Z.of_nat (length (key :: KEYS))) 0) as [Hz|_].
  { simpl in Hz. lia. }
  rewrite Z.div_small by lia. simpl.
  destruct (generate_scraping_config_returns SUB_REDDITS
              (30 + hd 0 zs mod (120 - 30 + 1))
              (100 + hd 0 (tail zs) mod (1000 - 100 + 1))
              (5 + hd 0 (tail (tail zs)) mod (15 - 5 + 1))
              (randint_nonzero_steps _)) as [c Hc].
  exists c. rewrite Hc. by rewrite tail3.
Qed.

End LoggedEnv.

End ScriptExtras.

(** ** The sub-reddits handed to each key *)

Lemma key_sub_reddits_window (SUB_REDDITS : list pystr) (R : Z) (i : nat) :
  0 <= R ->
  Script.key_sub_reddits SUB_REDDITS R (Z.of_nat i)
  = take (Z.to_nat R) (drop i SUB_REDDITS).
Proof.
  intros HR. unfold Script.key_sub_reddits.
  rewrite slice_window by lia. by rewrite Nat2Z.id.
Qed.

(** X25. When there are at least as many sub-reddits as keys, every key,
    the last one included, is handed exactly [REDDITS_PER_KEY] sub-reddits,
    and the share of key [i + 1] is the share of key [i] moved by one
    sub-reddit. When [REDDITS_PER_KEY] is at least 2, neighbouring keys
    therefore share a sub-reddit: the second of key [i] is the first of
    key [i + 1]. *)
Theorem key_sub_reddits_shifted (SUB_REDDITS : list pystr) (keys : nat) :
  0 < Z.of_nat (length SUB_REDDITS) / Z.of_nat keys ->
  (forall i : nat,
     (i < keys)%nat ->
     Z.of_nat (length (Script.key_sub_reddits SUB_REDDITS
                         (Z.of_nat (length SUB_REDDITS) / Z.of_nat keys)
                         (Z.of_nat i)))
     = Z.of_nat (length SUB_REDDITS) / Z.of_nat keys) /\
  (forall i : nat,
     (S i < keys)%nat ->
     drop 1 (Script.key_sub_reddits SUB_REDDITS
               (Z.of_nat (length SUB_REDDITS) / Z.of_nat keys) (Z.of_nat i))
     = take (Z.to_nat (Z.of_nat (length SUB_REDDITS) / Z.of_nat keys) - 1)
            (Script.key_sub_reddits SUB_REDDITS
               (Z.of_nat (length SUB_REDDITS) / Z.of_nat keys)
               (Z.of_nat (S i))) /\
     (2 <= Z.of_nat (length SUB_REDDITS) / Z.of_nat keys ->
      exists label,
        Script.key_sub_reddits SUB_REDDITS
          (Z.of_nat (length SUB_REDDITS) / Z.of_nat keys) (Z.of_nat i)
        !! 1%nat = Some label /\
        Script.key_sub_reddits SUB_REDDITS
          (Z.of_nat (length SUB_REDDITS) / Z.of_nat keys) (Z.of_nat (S i))
        !! 0%nat = Some label)).
Proof.
  intros HR. split.
  - intros i Hi. rewrite key_sub_reddits_window by lia.
    rewrite window_length; [lia|].
    pose proof (windows_fit (Z.of_nat (length SUB_REDDITS)) (Z.of_nat keys) i)
      as Hfit.
    lia.
  - intros i Hi. rewrite !key_sub_reddits_window by lia. split.
    + apply window_shift.
    + intros HR2.
      pose proof (windows_fit (Z.of_nat (length SUB_REDDITS))
                    (Z.of_nat keys) (S i)) as Hfit.
      apply window_shared; lia.
Qed.

Lemma key_sub_reddits_shifted_witness :
  Z.of_nat (length (Script.key_sub_reddits ten_labels
                      (Z.of_nat (length ten_labels) / Z.of_nat 3)
                      (Z.of_nat 2)))
  = Z.of_nat (length ten_labels) / Z.of_nat 3 /\
  exists label,
    Script.key_sub_reddits ten_labels
      (Z.of_nat (length ten_labels) / Z.of_nat 3) (Z.of_nat 0)
    !! 1%nat = Some label /\
    Script.key_sub_reddits ten_labels
      (Z.of_nat (length ten_labels) / Z.of_nat 3) (Z.of_nat 1)
    !! 0%nat = Some label.
Proof.
  destruct (key_sub_reddits_shifted ten_labels 3) as [Hsize Hshift].
  - vm_compute. reflexivity.
  - split.
    + apply (Hsize 2%nat). lia.
    + destruct (Hshift 0%nat) as [_ Hshared]; [lia|].
      apply Hshared. vm_compute. discriminate.
Defined.

(** X26. In that case the sub-reddits handed to some key are exactly the
    first [len(KEYS) + REDDITS_PER_KEY - 1] ones: a later sub-reddit is
    handed to no key. *)
Theorem key_sub_reddits_coverage
    (SUB_REDDITS : list pystr) (keys : nat) (label : pystr) :
  0 < Z.of_nat (length SUB_REDDITS) / Z.of_nat keys ->
  label ∈ concat
            (Script.key_sub_reddits SUB_REDDITS
               (Z.of_nat (length SUB_REDDITS) / Z.of_nat keys)
             <$> range (Z.of_nat keys))
  <-> label ∈ take (keys
                    + Z.to_nat (Z.of_nat (length SUB_REDDITS) / Z.of_nat keys)
                    - 1)
                   SUB_REDDITS.
Proof.
  intros HR.
  assert (0 < keys)%nat as Hkeys.
  { destruct keys; [|lia]. simpl in HR. rewrite Z.div_0_r in HR. lia. }
  rewrite range_seq, Nat2Z.id, <- list_fmap_compose.
  rewrite <- (windows_cover SUB_REDDITS keys
                (Z.to_nat (Z.of_nat (length SUB_REDDITS) / Z.of_nat keys)))
    by lia.
  assert (Script.key_sub_reddits SUB_REDDITS
            (Z.of_nat (length SUB_REDDITS) / Z.of_nat keys) ∘ Z.of_nat
          <$> seq 0 keys
          = (fun i => take (Z.to_nat (Z.of_nat (length SUB_REDDITS)
                                      / Z.of_nat keys))
                           (drop i SUB_REDDITS))
            <$> seq 0 keys) as ->; [|done].
  apply list_fmap_ext. intros _ i _. simpl.
  apply key_sub_reddits_window. lia.
Qed.

Lemma key_sub_reddits_coverage_witness :
  str "e" ∈ concat
              (Script.key_sub_reddits ten_labels
                 (Z.of_nat (length ten_labels) / Z.of_nat 3)
               <$> range (Z.of_nat 3)).
Proof.
  apply (key_sub_reddits_coverage ten_labels 3 (str "e")).
  - vm_compute. reflexivity.
  - apply (bool_decide_unpack _). vm_compute. exact I.
Defined.

(** ** The script on sample keys *)

Lemma main_few_sub_reddits_raises_witness :
  raises
    (fst (Script.main
            SampleProvider.REDDIT_LITE SampleProvider.X_FLASH
            SampleProvider.REDDIT_CUSTOM SampleProvider.X_MICROWORLDS
            (SampleProvider.no_arguments SampleProvider.RedditLite)
            (SampleProvider.no_arguments SampleProvider.MicroworldsTwitter)
            (fun kwargs => OK (SampleProvider.RedditCustom kwargs))
            Script.logged_env
            [SampleProvider.keys; SampleProvider.keys] (strs ["a"]%string)
            ([7; 8; 9], []))).
Proof.
  apply (main_few_sub_reddits_raises
           SampleProvider.REDDIT_LITE SampleProvider.X_FLASH
           SampleProvider.REDDIT_CUSTOM SampleProvider.X_MICROWORLDS
           (SampleProvider.no_arguments SampleProvider.RedditLite)
           (SampleProvider.no_arguments SampleProvider.MicroworldsTwitter)
           (fun kwargs => OK (SampleProvider.RedditCustom kwargs))
           Script.logged_env
           [SampleProvider.keys; SampleProvider.keys] (strs ["a"]%string)
           ([7; 8; 9], [])).
  - discriminate.
  - simpl. lia.
Defined.

Lemma main_starts_one_coordinator_per_key_witness :
  exists started,
    Script.main
      SampleProvider.REDDIT_LITE SampleProvider.X_FLASH
      SampleProvider.REDDIT_CUSTOM SampleProvider.X_MICROWORLDS
      (SampleProvider.no_arguments SampleProvider.RedditLite)
      (SampleProvider.no_arguments SampleProvider.MicroworldsTwitter)
      (fun kwargs => OK (SampleProvider.RedditCustom kwargs))
      Script.logged_env
      [SampleProvider.keys; SampleProvider.keys] ten_labels
      ([1; 2; 3; 4; 5; 6; 7], [])
    = (OK tt, (drop (3 * 2) [1; 2; 3; 4; 5; 6; 7], started)) /\
    fst <$> started
    = Script.provider_for
        SampleProvider.REDDIT_LITE SampleProvider.X_FLASH
        SampleProvider.REDDIT_CUSTOM SampleProvider.X_MICROWORLDS
        (SampleProvider.no_arguments SampleProvider.RedditLite)
        (SampleProvider.no_arguments SampleProvider.MicroworldsTwitter)
        (fun kwargs => OK (SampleProvider.RedditCustom kwargs))
      <$> [SampleProvider.keys; SampleProvider.keys].
Proof.
  apply (main_starts_one_coordinator_per_key
           SampleProvider.REDDIT_LITE SampleProvider.X_FLASH
           SampleProvider.REDDIT_CUSTOM SampleProvider.X_MICROWORLDS
           (SampleProvider.no_arguments SampleProvider.RedditLite)
           (SampleProvider.no_arguments SampleProvider.MicroworldsTwitter)
           (fun kwargs => OK (SampleProvider.RedditCustom kwargs))
           [SampleProvider.keys; SampleProvider.keys] ten_labels
           [1; 2; 3; 4; 5; 6; 7]).
  - discriminate.
  - simpl. lia.
Defined.

Lemma main_few_sub_reddits_name_error_witness :
  exists c,
    Script.main
      SampleProvider.REDDIT_LITE SampleProvider.X_FLASH
      SampleProvider.REDDIT_CUSTOM SampleProvider.X_MICROWORLDS
      (SampleProvider.no_arguments SampleProvider.RedditLite)
      (SampleProvider.no_arguments SampleProvider.MicroworldsTwitter)
      (fun kwargs => OK (SampleProvider.RedditCustom kwargs))
      Script.logged_env
      [SampleProvider.keys; SampleProvider.keys] (strs ["a"]%string)
      ([7; 8; 9], [])
    = (Raise Script.NameError,
       (drop 3 [7; 8; 9],
        [(Script.provider_for
            SampleProvider.REDDIT_LITE SampleProvider.X_FLASH
            SampleProvider.REDDIT_CUSTOM SampleProvider.X_MICROWORLDS
            (SampleProvider.no_arguments SampleProvider.RedditLite)
            (SampleProvider.no_arguments SampleProvider.MicroworldsTwitter)
            (fun kwargs => OK (SampleProvider.RedditCustom kwargs))
            SampleProvider.keys, c)])).
Proof.
  apply (main_few_sub_reddits_name_error
           SampleProvider.REDDIT_LITE SampleProvider.X_FLASH
           SampleProvider.REDDIT_CUSTOM SampleProvider.X_MICROWORLDS
           (SampleProvider.no_arguments SampleProvider.RedditLite)
           (SampleProvider.no_arguments SampleProvider.MicroworldsTwitter)
           (fun kwargs => OK (SampleProvider.RedditCustom kwargs))
           SampleProvider.keys [SampleProvider.keys] (strs ["a"]%string)
           [7; 8; 9]).
  simpl. lia.
Defined.

(** ** Timestamps with different offsets *)

(** 11:52 at +01:00 and 10:52 at UTC are the same instant. *)
Example datetime_eqb_same_instant :
  dt.datetime_eqb
    (dt.mkdatetime 2023 12 9 11 52 0 0 (Some (dt.mktimezone 3600000000)))
    Sample.posted
  = true.
Proof. vm_compute. reflexivity. Qed.

(** A naive and an aware timestamp are never equal. *)
Example datetime_eqb_naive_aware :
  dt.datetime_eqb (dt.mkdatetime 2023 12 9 10 52 0 0 None) Sample.posted
  = false.
Proof. vm_compute. reflexivity. Qed.

(** A claim stamped 11:52 at +01:00 matches the tweet fetched at 10:52 UTC. *)
Example validate_tweet_same_instant :
  Twitter._validate_tweet
    (Sample.env_claiming
       {| Twitter.username := Twitter.username Sample.stored_tweet;
          Twitter.text := Twitter.text Sample.stored_tweet;
          Twitter.url := Twitter.url Sample.stored_tweet;
          Twitter.timestamp :=
            dt.mkdatetime 2023 12 9 11 52 0 0
              (Some (dt.mktimezone 3600000000));
          Twitter.tweet_hashtags :=
            Twitter.tweet_hashtags Sample.stored_tweet |})
    Sample.stored_tweet Sample.good_entity
  = OK (Notion.confirmed Sample.good_entity).
Proof. vm_compute. reflexivity. Qed.
